(** * libxml2: the tree header and the two fuzz targets

    A shallow embedding of
    - [include/libxml/tree.h]: the node-kind enumeration [xmlElementType],
      the node record [struct _xmlNode] and the accessor [XML_GET_CONTENT];
    - [fuzz/xmlIO-uri.c]: the libFuzzer target of the URL input buffer;
    - [fuzz/lint.c]: the libFuzzer target that drives [xmllintMain] with an
      argument vector synthesised from the fuzz data.

    C integers are [Z] with the conversions written out, [char *] is an
    optional [string] ([None] is [NULL]), the argument array is a list of
    cells updated by index, and the calls that leave the translation unit
    are recorded as a trace of events. *)

From Stdlib Require Import ZArith Lia Strings.Byte Ascii DecimalString DecimalN.
From stdpp Require Import base tactics option list sets strings.

Local Open Scope Z_scope.
#[local] Set Warnings "-clear-no-such-hyp".

(** ** tree.h *)

Module Tree.

(** [typedef enum { ... } xmlElementType;] (tree.h, lines 139-181). *)
Inductive xmlElementType : Set :=
| XML_ELEMENT_NODE
| XML_ATTRIBUTE_NODE
| XML_TEXT_NODE
| XML_CDATA_SECTION_NODE
| XML_ENTITY_REF_NODE
| XML_ENTITY_NODE
| XML_PI_NODE
| XML_COMMENT_NODE
| XML_DOCUMENT_NODE
| XML_DOCUMENT_TYPE_NODE
| XML_DOCUMENT_FRAG_NODE
| XML_NOTATION_NODE
| XML_HTML_DOCUMENT_NODE
| XML_DTD_NODE
| XML_ELEMENT_DECL
| XML_ATTRIBUTE_DECL
| XML_ENTITY_DECL
| XML_NAMESPACE_DECL
| XML_XINCLUDE_START
| XML_XINCLUDE_END.

#[global] Instance xmlElementType_eq_dec : EqDecision xmlElementType.
Proof. solve_decision. Defined.

(** The integer each enumerator is declared with. *)
Definition xmlElementType_value (t : xmlElementType) : Z :=
  match t with
  | XML_ELEMENT_NODE => 1
  | XML_ATTRIBUTE_NODE => 2
  | XML_TEXT_NODE => 3
  | XML_CDATA_SECTION_NODE => 4
  | XML_ENTITY_REF_NODE => 5
  | XML_ENTITY_NODE => 6
  | XML_PI_NODE => 7
  | XML_COMMENT_NODE => 8
  | XML_DOCUMENT_NODE => 9
  | XML_DOCUMENT_TYPE_NODE => 10
  | XML_DOCUMENT_FRAG_NODE => 11
  | XML_NOTATION_NODE => 12
  | XML_HTML_DOCUMENT_NODE => 13
  | XML_DTD_NODE => 14
  | XML_ELEMENT_DECL => 15
  | XML_ATTRIBUTE_DECL => 16
  | XML_ENTITY_DECL => 17
  | XML_NAMESPACE_DECL => 18
  | XML_XINCLUDE_START => 19
  | XML_XINCLUDE_END => 20
  end.

(** The enumerators in declaration order. *)
Definition xmlElementType_all : list xmlElementType :=
  [ XML_ELEMENT_NODE; XML_ATTRIBUTE_NODE; XML_TEXT_NODE;
    XML_CDATA_SECTION_NODE; XML_ENTITY_REF_NODE; XML_ENTITY_NODE;
    XML_PI_NODE; XML_COMMENT_NODE; XML_DOCUMENT_NODE;
    XML_DOCUMENT_TYPE_NODE; XML_DOCUMENT_FRAG_NODE; XML_NOTATION_NODE;
    XML_HTML_DOCUMENT_NODE; XML_DTD_NODE; XML_ELEMENT_DECL;
    XML_ATTRIBUTE_DECL; XML_ENTITY_DECL; XML_NAMESPACE_DECL;
    XML_XINCLUDE_START; XML_XINCLUDE_END ].

(** Reading an [int] back as an enumerator: the member that carries the
    value, if there is one. *)
Definition xmlElementType_of_Z (z : Z) : option xmlElementType :=
  List.find (fun t => xmlElementType_value t =? z) xmlElementType_all.

(** [#define XML_DOCB_DOCUMENT_NODE 21] (tree.h, line 185); inside the
    enumeration the member is commented out as removed (line 180). *)
Definition XML_DOCB_DOCUMENT_NODE : Z := 21.

(** Addresses of structures the header only points at. *)
Definition addr := N.

(** [struct _xmlNode] (tree.h, lines 536-572). [xmlChar *] fields are
    optional strings, pointers to other structures optional addresses. *)
Record xmlNode : Type := mk_xmlNode {
  _private : option addr;
  type : xmlElementType;
  name : option string;
  children : option addr;
  last : option addr;
  parent : option addr;
  next : option addr;
  prev : option addr;
  doc : option addr;
  ns : option addr;
  content : option string;
  properties : option addr;
  nsDef : option addr;
  psvi : option addr;
  line : Z;
  extra : Z
}.

(** [#define XML_GET_CONTENT(n) \
       ((n)->type == XML_ELEMENT_NODE ? NULL : (n)->content)]
    (tree.h, lines 43-44). *)
Definition XML_GET_CONTENT (n : xmlNode) : option string :=
  if xmlElementType_value (type n) =? xmlElementType_value XML_ELEMENT_NODE
  then None
  else content n.

End Tree.

(** ** What the two fuzz targets share *)

(** [const char *]: [NULL], or the address of a NUL-terminated string,
    which is modelled by the string it holds. *)
Abbreviation cptr := (option string).

(** [xmlCharEncoding] is declared in encoding.h, which the targets reach
    through parser.h; they name only [XML_CHAR_ENCODING_NONE]. *)
Variant xmlCharEncoding : Set :=
| XML_CHAR_ENCODING_ERROR
| XML_CHAR_ENCODING_NONE
| XML_CHAR_ENCODING_UTF8.

(** The four function pointers handed to [xmlRegisterInputCallbacks]. *)
Record xmlInputCallbacks : Type := {
  matchcallback : cptr -> Z;
  opencallback : cptr -> option Tree.addr;
  readcallback : option Tree.addr -> option Tree.addr -> Z -> Z;
  closecallback : option Tree.addr -> Z
}.

(** Calls that leave the translation unit, in program order. *)
Inductive event : Type :=
| xmlRegisterInputCallbacks (cb : xmlInputCallbacks)
| xmlParserInputBufferCreateUrl
    (URI : list byte) (enc : xmlCharEncoding) (flags : Z)
| xmlFreeParserInputBuffer (buf : Tree.addr)
| xmlMemUsed
| fprintf_stderr (msg : string)
| malloc (nmemb : nat)
| xmlFuzzDataInit (data : list byte) (size : Z)
| xmlSetGenericErrorFunc
| xmlCatalogSetDefaults
| xmllintMain (argc : Z) (argv : list (option cptr))
| xmlMemSetup
| xmlFuzzDataCleanup
| free_argv.

(** The number of calls of [xmlRegisterInputCallbacks] in a trace. *)
Definition is_register (e : event) : bool :=
  match e with
  | xmlRegisterInputCallbacks _ => true
  | _ => false
  end.
Definition registrations (t : list event) : nat :=
  length (List.filter is_register t).

(** What the rest of the process answers during one call of a target. *)
Record world : Type := {
  (** the pointer [xmlParserInputBufferCreateUrl] leaves in [out] *)
  createUrl_out : list byte -> option Tree.addr;
  (** the value of [xmlMemUsed()] at the leak check *)
  memUsed : Z;
  (** whether [malloc] finds room for the argument array *)
  malloc_succeeds : bool;
  (** the indeterminate value of the local [uval] before its first store *)
  uval_indeterminate : Z;
  (** whether the build defines [LIBXML_CATALOG_ENABLED] *)
  LIBXML_CATALOG_ENABLED : bool
}.

(** The ways a call of a target ends without returning: [abort()], a store
    through a null [vars.argv], a store past the end of the array, and a
    load through a null pointer. *)
Variant halt : Set := Abort | NullStore | OutOfBounds | NullLoad.

Inductive result (S A : Type) : Type :=
| Done (a : A) (s : S)
| Halt (h : halt) (s : S).
Arguments Done {S A} a s.
Arguments Halt {S A} h s.

(** Computations over the state [S] of a target that may stop the process. *)
Definition M (S A : Type) : Type := S -> result S A.

#[global] Instance M_ret {S} : MRet (M S) := fun A a s => Done a s.
#[global] Instance M_bind {S} : MBind (M S) := fun A B f m s =>
  match m s with
  | Done a s' => f a s'
  | Halt h s' => Halt h s'
  end.

(** Integer conversions of an LP64 target. *)
Definition INT_MAX : Z := 2147483647.
Definition to_unsigned (v : Z) : Z := v mod 2 ^ 32.
Definition to_size_t (v : Z) : Z := v mod 2 ^ 64.
Definition to_int (v : Z) : Z := (v + 2 ^ 31) mod 2 ^ 32 - 2 ^ 31.

(** [snprintf(buf, n, "%u", v)] and [snprintf(buf, n, "%d", v)]: the decimal
    numeral, cut to the [n - 1] characters the buffer has room for. *)
Definition snprintf_u (n : nat) (v : Z) : string :=
  String.substring 0 (n - 1) (NilZero.string_of_uint (N.to_uint (Z.to_N v))).
Definition snprintf_d (n : nat) (v : Z) : string :=
  String.substring 0 (n - 1) (NilZero.string_of_int (Z.to_int v)).

(** [data[i] == '\0'] for a buffer [data] of [length data] bytes. *)
Definition is_nul_at (data : list byte) (i : Z) : bool :=
  match data !! Z.to_nat i with
  | Some c => Byte.eqb c x00
  | None => false
  end.

(** ** fuzz/xmlIO-uri.c *)

Module XmlIOUri.

(** The function-local [static int initialized] and the calls made so far. *)
Record state : Type := mk_state {
  initialized : Z;
  trace : list event
}.

Definition emit (e : event) : M state unit :=
  fun s => Done tt (mk_state (initialized s) (trace s ++ [e])).
Definition set_initialized (v : Z) : M state unit :=
  fun s => Done tt (mk_state v (trace s)).
Definition get_initialized : M state Z :=
  fun s => Done (initialized s) s.

(** Lines 22-37. *)
Definition myMatch (URI : cptr) : Z := 1.
Definition myOpen (URI : cptr) : option Tree.addr := None.
Definition myRead (ctx buf : option Tree.addr) (len : Z) : Z := -1.
Definition myClose (ctx : option Tree.addr) : Z := 0.

Definition callbacks : xmlInputCallbacks :=
  {| matchcallback := myMatch; opencallback := myOpen;
     readcallback := myRead; closecallback := myClose |}.

(** Lines 39-56. *)
Definition LLVMFuzzerTestOneInput (w : world) (data : list byte)
  : M state Z :=
  let size := Z.of_nat (length data) in
  if (size =? 0) || negb (is_nul_at data (size - 1)) then mret 0
  else
    init ← get_initialized;
    (if init =? 0
     then emit (xmlRegisterInputCallbacks callbacks);; set_initialized 1
     else mret tt);;
    emit (xmlParserInputBufferCreateUrl data XML_CHAR_ENCODING_NONE 0);;
    (match createUrl_out w data with
     | Some out => emit (xmlFreeParserInputBuffer out)
     | None => mret tt
     end);;
    mret 0.

(** The process: one call per input, each with the answers of its world. *)
Fixpoint run (inputs : list (world * list byte)) : M state unit :=
  match inputs with
  | [] => mret tt
  | (w, data) :: rest => LLVMFuzzerTestOneInput w data;; run rest
  end.

(** The state the loader leaves the statics in. *)
Definition start : state := mk_state 0 [].

(** The state a result carries, and the calls a call of the target made. *)
Definition final {A} (r : result state A) : state :=
  match r with
  | Done _ s' => s'
  | Halt _ s' => s'
  end.
Definition calls (w : world) (data : list byte) (s : state) : list event :=
  drop (length (trace s)) (trace (final (LLVMFuzzerTestOneInput w data s))).

End XmlIOUri.

(** ** fuzz.h: the reader of structured fuzz data

    fuzz.c is not among the sources. The CLI target reaches it through the
    functions below, which are therefore taken as an interface over the
    reader's own state. *)
Record fuzz_api : Type := {
  fuzzData : Type;
  (** [xmlFuzzDataInit(data, size)] *)
  fuzzDataInit : list byte -> fuzzData -> fuzzData;
  (** [xmlFuzzReadInt(size)]: the [size_t] read and the reader afterwards *)
  xmlFuzzReadInt : Z -> fuzzData -> Z * fuzzData;
  (** [xmlFuzzReadString(&ssize)]: the pointer returned, [ssize], and the
      reader afterwards *)
  xmlFuzzReadString : fuzzData -> cptr * Z * fuzzData;
  (** [xmlFuzzReadEntities()] *)
  xmlFuzzReadEntities : fuzzData -> fuzzData;
  (** [xmlFuzzMainEntity(&docSize)]: the pointer returned *)
  xmlFuzzMainEntity : fuzzData -> cptr;
  (** [xmlFuzzMainUrl()] *)
  xmlFuzzMainUrl : fuzzData -> cptr;
  (** [xmlFuzzDataCleanup()] *)
  fuzzDataCleanup : fuzzData -> fuzzData
}.

(** What the CLI target relies on: [xmlFuzzReadInt(n)] assembles at most [n]
    bytes, and [xmlFuzzReadString] reports a positive size only with a
    string. *)
Record fuzz_api_ok (F : fuzz_api) : Prop := {
  readInt_bytes : forall n fd,
    0 <= n -> 0 <= (xmlFuzzReadInt F n fd).1 < 2 ^ (8 * n);
  readString_sized : forall fd sval ssize fd',
    xmlFuzzReadString F fd = (sval, ssize, fd') -> 0 < ssize -> sval <> None
}.

(** ** fuzz/lint.c *)

Module Lint.

(** Lines 43-91. *)
Definition switches : list cptr := [
  Some "--auto";
  Some "--c14n";
  Some "--c14n11";
  Some "--compress";
  Some "--copy";
  Some "--debug";
  None;
  Some "--dropdtd";
  Some "--dtdattr";
  Some "--exc-c14n";
  Some "--format";
  None;
  Some "--huge";
  Some "--insert";
  Some "--loaddtd";
  Some "--load-trace";
  None;
  Some "--noblanks";
  Some "--nocdata";
  Some "--nocompact";
  Some "--nodefdtd";
  Some "--nodict";
  Some "--noenc";
  Some "--noent";
  Some "--nofixup-base-uris";
  Some "--nonet";
  Some "--noout";
  Some "--nowarning";
  None;
  Some "--noxincludenode";
  Some "--nsclean";
  Some "--oldxml10";
  Some "--pedantic";
  Some "--postvalid";
  Some "--push";
  Some "--pushsmall";
  Some "--quiet";
  Some "--recover";
  Some "--repeat";
  Some "--sax1";
  None;
  Some "--timing";
  Some "--valid";
  Some "--version";
  Some "--walker";
  Some "--xinclude";
  Some "--xmlout"
]%string.

(** [sizeof(switches) / sizeof(switches[0])] *)
Definition numSwitches : nat := length switches.

(** [struct { const char **argv; size_t argi; } vars;] The block [argv]
    points at is a list of cells; a cell nothing was stored in is [None]. *)
Record vars_t : Type := mk_vars {
  argv : option (list (option cptr));
  argi : nat
}.

(** Lines 124-139. *)
Definition myMatch (URI : cptr) : Z := 1.
Definition myOpen (URI : cptr) : option Tree.addr := None.
Definition myRead (ctx buf : option Tree.addr) (len : Z) : Z := -1.
Definition myClose (ctx : option Tree.addr) : Z := 0.

Definition callbacks : xmlInputCallbacks :=
  {| matchcallback := myMatch; opencallback := myOpen;
     readcallback := myRead; closecallback := myClose |}.

Section target.
Context (F : fuzz_api).

(** The statics of the translation unit, the reader's state, and the calls
    made so far. *)
Record state : Type := mk_state {
  initialized : Z;
  vars : vars_t;
  fuzz : fuzzData F;
  trace : list event
}.

Definition emit (e : event) : M state unit :=
  fun s => Done tt (mk_state (initialized s) (vars s) (fuzz s) (trace s ++ [e])).
Definition get_initialized : M state Z :=
  fun s => Done (initialized s) s.
Definition set_initialized (v : Z) : M state unit :=
  fun s => Done tt (mk_state v (vars s) (fuzz s) (trace s)).
Definition get_vars : M state vars_t :=
  fun s => Done (vars s) s.
Definition set_vars (v : vars_t) : M state unit :=
  fun s => Done tt (mk_state (initialized s) v (fuzz s) (trace s)).
Definition stop {A} (h : halt) : M state A :=
  fun s => Halt h s.

(** A call into the reader that returns [A]. *)
Definition reader {A} (f : fuzzData F -> A * fuzzData F) : M state A :=
  fun s => let '(a, fd) := f (fuzz s) in
           Done a (mk_state (initialized s) (vars s) fd (trace s)).

(** Lines 99-102: [vars.argv[vars.argi++] = str]. *)
Definition pushArg (str : cptr) : M state unit :=
  v ← get_vars;
  match argv v with
  | None => stop NullStore
  | Some cells =>
      if decide (argi v < length cells)%nat
      then set_vars (mk_vars (Some (<[argi v := Some str]> cells)) (S (argi v)))
      else stop OutOfBounds
  end.

(** Lines 178-184, from index [i] on: [sw] is [switches + i]. *)
Fixpoint for_switches (sw : list cptr) (i : Z) (uval : Z) : M state Z :=
  match sw with
  | [] => mret uval
  | switches_i :: sw' =>
      uval ← (if i mod 32 =? 0
              then v ← reader (xmlFuzzReadInt F 4); mret (to_unsigned v)
              else mret uval);
      (if negb (Z.land uval 1 =? 0) && bool_decide (switches_i <> None)
       then pushArg switches_i
       else mret tt);;
      for_switches sw' (i + 1) (Z.shiftr uval 1)
  end.

(** Lines 189-205. *)
Definition push_mode (uval : Z) : M state unit :=
  match Z.land uval 3 with
  | 0 => mret tt
  | 1 => pushArg (Some "--html"%string)
  | 2 => pushArg (Some "--stream"%string)
  | 3 => pushArg (Some "--sax"%string)
  | _ => mret tt
  end.

(** Lines 207-216. *)
Definition push_maxmem (size : Z) : M state unit :=
  v ← reader (xmlFuzzReadInt F 4);
  let uval := to_unsigned v in
  if 0 <? uval then
    let uval :=
      if size <=? (INT_MAX - 2000) / 20
      then to_unsigned (uval mod to_size_t (size * 20 + 2000))
      else uval mod INT_MAX in
    let maxmemBuf := snprintf_u 20 uval in
    pushArg (Some "--maxmem"%string);;
    pushArg (Some maxmemBuf)
  else mret tt.

(** Lines 218-223. *)
Definition push_max_ampl : M state unit :=
  v ← reader (xmlFuzzReadInt F 1);
  let ival := to_int v in
  if (1 <=? ival) && (ival <=? 5) then
    let maxAmplBuf := snprintf_d 20 ival in
    pushArg (Some "--max-ampl"%string);;
    pushArg (Some maxAmplBuf)
  else mret tt.

(** Lines 225-230. *)
Definition push_pretty : M state unit :=
  v ← reader (xmlFuzzReadInt F 1);
  let ival := to_int v in
  if negb (ival =? 0) then
    let prettyBuf := snprintf_d 20 (Z.rem ival 4) in
    pushArg (Some "--pretty"%string);;
    pushArg (Some prettyBuf)
  else mret tt.

(** Lines 232-236, 238-242 and 244-248, which differ in the option. *)
Definition push_string (option : string) : M state unit :=
  '(sval, ssize) ← reader (xmlFuzzReadString F);
  if 0 <? ssize then
    pushArg (Some option);;
    pushArg sval
  else mret tt.

(** Lines 268-271, the label [exit]. *)
Definition exit : M state Z :=
  reader (fun fd => (tt, fuzzDataCleanup F fd));;
  emit xmlFuzzDataCleanup;;
  emit free_argv;;
  mret 0.

(** Lines 250-271. *)
Definition run_document (w : world) : M state Z :=
  reader (fun fd => (tt, xmlFuzzReadEntities F fd));;
  docBuffer ← reader (fun fd => (xmlFuzzMainEntity F fd, fd));
  docUrl ← reader (fun fd => (xmlFuzzMainUrl F fd, fd));
  match docBuffer, docUrl with
  | None, _ => exit
  | Some _, None => stop NullLoad
  | Some _, Some url =>
      if bool_decide (String.get 0 url = Some "-"%char) then exit
      else
        pushArg docUrl;;
        pushArg None;;
        emit xmlSetGenericErrorFunc;;
        (if LIBXML_CATALOG_ENABLED w then emit xmlCatalogSetDefaults
         else mret tt);;
        v ← get_vars;
        emit (xmllintMain (to_int (Z.of_nat (argi v) - 1))
                          (default [] (argv v)));;
        emit xmlMemSetup;;
        exit
  end.

(** Lines 171-248: the argument vector up to the document. *)
Definition build_args (w : world) (data : list byte) : M state unit :=
  let size := Z.of_nat (length data) in
  emit (malloc (numSwitches + 5 + 6 * 2));;
  v ← get_vars;
  set_vars (mk_vars (if malloc_succeeds w
                     then Some (replicate (numSwitches + 5 + 6 * 2) None)
                     else None) (argi v));;
  v ← get_vars;
  set_vars (mk_vars (argv v) 0);;
  pushArg (Some "xmllint"%string);;
  pushArg (Some "--nocatalogs"%string);;
  reader (fun fd => (tt, fuzzDataInit F data fd));;
  emit (xmlFuzzDataInit data size);;
  uval ← for_switches switches 0 (uval_indeterminate w);
  push_mode uval;;
  push_maxmem size;;
  push_max_ampl;;
  push_pretty;;
  push_string "--encode";;
  push_string "--pattern";;
  push_string "--xpath".

(** Lines 151-163: the one-shot registration and the direct call. *)
Definition try_create_url (w : world) (data : list byte) : M state unit :=
  let size := Z.of_nat (length data) in
  init ← get_initialized;
  (if init =? 0
   then emit (xmlRegisterInputCallbacks callbacks);; set_initialized 1
   else mret tt);;
  if (0 <? size) && is_nul_at data (size - 1) then
    emit (xmlParserInputBufferCreateUrl data XML_CHAR_ENCODING_NONE 0);;
    match createUrl_out w data with
    | Some out => emit (xmlFreeParserInputBuffer out)
    | None => mret tt
    end
  else mret tt.

(** Lines 166-169. *)
Definition leak_check (w : world) : M state unit :=
  emit xmlMemUsed;;
  if negb (memUsed w =? 0) then
    emit (fprintf_stderr
            (String.append "Undetected leak in previous iteration"
                           (String "010"%char EmptyString)));;
    stop Abort
  else mret tt.

(** Lines 141-272. *)
Definition LLVMFuzzerTestOneInput (w : world) (data : list byte)
  : M state Z :=
  try_create_url w data;;
  leak_check w;;
  build_args w data;;
  run_document w.

(** The process: one call per input, each with the answers of its world;
    a call that stops the process ends the run. *)
Fixpoint run (inputs : list (world * list byte)) : M state unit :=
  match inputs with
  | [] => mret tt
  | (w, data) :: rest => LLVMFuzzerTestOneInput w data;; run rest
  end.

(** The state the loader leaves the statics in, around a reader state. *)
Definition start (fd : fuzzData F) : state :=
  mk_state 0 (mk_vars None 0) fd [].

(** *** What the target computes, as functions of what the reader returns *)

(** [numSwitches + 5 + 6 * 2], the number of cells [malloc] is asked for. *)
Definition capacity : nat := numSwitches + 5 + 6 * 2.

(** [vars] once the strings [l] were pushed into a fresh block. *)
Definition filled (l : list cptr) : vars_t :=
  mk_vars (Some ((Some <$> l) ++ replicate (capacity - length l) None))
          (length l).

(** The state [s] with [l] pushed into a fresh block and the reader at
    [fd]. *)
Definition pushed (s : state) (l : list cptr) (fd : fuzzData F) : state :=
  mk_state (initialized s) (filled l) fd (trace s).

(** Lines 178-184: the switches pushed, the [uval] left, the reader after. *)
Fixpoint selected (sw : list cptr) (i uval : Z) (fd : fuzzData F)
  : list cptr * Z * fuzzData F :=
  match sw with
  | [] => ([], uval, fd)
  | switches_i :: sw' =>
      let '(uval, fd) :=
        if i mod 32 =? 0
        then (to_unsigned (xmlFuzzReadInt F 4 fd).1, (xmlFuzzReadInt F 4 fd).2)
        else (uval, fd) in
      let '(l, uval', fd') := selected sw' (i + 1) (Z.shiftr uval 1) fd in
      ((if negb (Z.land uval 1 =? 0) && bool_decide (switches_i <> None)
        then [switches_i] else []) ++ l, uval', fd')
  end.

(** Lines 189-205, for the [uval] the loop left. *)
Definition mode_args (uval : Z) : list cptr :=
  match Z.land uval 3 with
  | 1 => [Some "--html"%string]
  | 2 => [Some "--stream"%string]
  | 3 => [Some "--sax"%string]
  | _ => []
  end.

(** Lines 207-216: the value printed into [maxmemBuf], for the value [v]
    that [xmlFuzzReadInt(4)] returned. *)
Definition maxmem_value (size v : Z) : Z :=
  if size <=? (INT_MAX - 2000) / 20
  then to_unsigned (to_unsigned v mod to_size_t (size * 20 + 2000))
  else to_unsigned v mod INT_MAX.
Definition maxmem_args (size v : Z) : list cptr :=
  if 0 <? to_unsigned v
  then [Some "--maxmem"%string; Some (snprintf_u 20 (maxmem_value size v))]
  else [].

(** Lines 218-223 and 225-230, for the value [v] that [xmlFuzzReadInt(1)]
    returned. *)
Definition max_ampl_args (v : Z) : list cptr :=
  if (1 <=? to_int v) && (to_int v <=? 5)
  then [Some "--max-ampl"%string; Some (snprintf_d 20 (to_int v))]
  else [].
Definition pretty_args (v : Z) : list cptr :=
  if negb (to_int v =? 0)
  then [Some "--pretty"%string; Some (snprintf_d 20 (Z.rem (to_int v) 4))]
  else [].

(** Lines 232-248, for what [xmlFuzzReadString] returned. *)
Definition string_args (option : string) (r : cptr * Z) : list cptr :=
  if 0 <? r.2 then [Some option; r.1] else [].

(** Everything the reader returns between [xmlFuzzDataInit] and
    [xmlFuzzReadEntities], in the order of the calls. *)
Record reads : Type := mk_reads {
  r_switches : list cptr;
  r_uval : Z;
  r_maxmem : Z;
  r_max_ampl : Z;
  r_pretty : Z;
  r_encode : cptr * Z;
  r_pattern : cptr * Z;
  r_xpath : cptr * Z;
  r_fuzz : fuzzData F
}.

Definition read_all (w : world) (data : list byte) (fd : fuzzData F)
  : reads :=
  let fd := fuzzDataInit F data fd in
  let '(sw, uval, fd) := selected switches 0 (uval_indeterminate w) fd in
  let '(maxmem, fd) := xmlFuzzReadInt F 4 fd in
  let '(max_ampl, fd) := xmlFuzzReadInt F 1 fd in
  let '(pretty, fd) := xmlFuzzReadInt F 1 fd in
  let '(encode, fd) := xmlFuzzReadString F fd in
  let '(pattern, fd) := xmlFuzzReadString F fd in
  let '(xpath, fd) := xmlFuzzReadString F fd in
  mk_reads sw uval maxmem max_ampl pretty encode pattern xpath fd.

(** The strings lines 173-248 push, in order. *)
Definition option_args (size : Z) (r : reads) : list cptr :=
  maxmem_args size (r_maxmem r) ++ max_ampl_args (r_max_ampl r) ++
  pretty_args (r_pretty r) ++ string_args "--encode" (r_encode r) ++
  string_args "--pattern" (r_pattern r) ++ string_args "--xpath" (r_xpath r).
Definition arguments (size : Z) (r : reads) : list cptr :=
  [Some "xmllint"%string; Some "--nocatalogs"%string] ++
  r_switches r ++ mode_args (r_uval r) ++ option_args size r.

(** The state [s] after the calls [es]. *)
Definition logs (s : state) (es : list event) : state :=
  mk_state (initialized s) (vars s) (fuzz s) (trace s ++ es).

(** Lines 152-156: the call made for a given value of the static, and the
    value the static has afterwards. *)
Definition register_events (init : Z) : list event :=
  if init =? 0 then [xmlRegisterInputCallbacks callbacks] else [].
Definition registered (init : Z) : Z :=
  if init =? 0 then 1 else init.

(** Lines 159-163: the calls made for the input [data]. *)
Definition create_url_events (w : world) (data : list byte) : list event :=
  let size := Z.of_nat (length data) in
  if (0 <? size) && is_nul_at data (size - 1) then
    xmlParserInputBufferCreateUrl data XML_CHAR_ENCODING_NONE 0 ::
    match createUrl_out w data with
    | Some out => [xmlFreeParserInputBuffer out]
    | None => []
    end
  else [].

(** Lines 259-266: the calls around [xmllintMain] for the pushed strings
    [l], the terminator among them. *)
Definition main_events (w : world) (l : list cptr) : list event :=
  [xmlSetGenericErrorFunc] ++
  (if LIBXML_CATALOG_ENABLED w then [xmlCatalogSetDefaults] else []) ++
  [xmllintMain (to_int (Z.of_nat (length l) - 1))
               ((Some <$> l) ++ replicate (capacity - length l) None);
   xmlMemSetup].

(** Lines 268-270. *)
Definition exit_events : list event := [xmlFuzzDataCleanup; free_argv].

(** The reader and the two pointers of line 251-252 once the arguments
    [r] were read. *)
Definition entities_read (r : reads) : fuzzData F :=
  xmlFuzzReadEntities F (r_fuzz r).
Definition docBuffer (r : reads) : cptr :=
  xmlFuzzMainEntity F (entities_read r).
Definition docUrl (r : reads) : cptr :=
  xmlFuzzMainUrl F (entities_read r).

(** [docUrl[0] == '-'] *)
Definition dash_first (url : string) : bool :=
  bool_decide (String.get 0 url = Some "-"%char).

(** The result of a call of the target, in closed form. *)
Definition target_result (w : world) (data : list byte) (s : state)
  : result state Z :=
  let size := Z.of_nat (length data) in
  let s1 :=
    mk_state (registered (initialized s)) (vars s) (fuzz s)
      (trace s ++ register_events (initialized s) ++
       create_url_events w data) in
  if negb (memUsed w =? 0) then
    Halt Abort
      (logs s1 [xmlMemUsed;
                fprintf_stderr
                  (String.append "Undetected leak in previous iteration"
                                 (String "010"%char EmptyString))])
  else if negb (malloc_succeeds w) then
    Halt NullStore
      (mk_state (initialized s1) (mk_vars None 0) (fuzz s1)
                (trace s1 ++ [xmlMemUsed; malloc capacity]))
  else
    let r := read_all w data (fuzz s) in
    let l := arguments size r in
    let s2 := logs s1 [xmlMemUsed; malloc capacity;
                       xmlFuzzDataInit data size] in
    let fd := entities_read r in
    match docBuffer r, docUrl r with
    | None, _ =>
        Done 0 (pushed (logs s2 exit_events) l (fuzzDataCleanup F fd))
    | Some _, None => Halt NullLoad (pushed s2 l fd)
    | Some _, Some url =>
        if dash_first url
        then Done 0 (pushed (logs s2 exit_events) l (fuzzDataCleanup F fd))
        else
          let l' := l ++ [Some url; None] in
          Done 0 (pushed (logs s2 (main_events w l' ++ exit_events)) l'
                         (fuzzDataCleanup F fd))
    end.

(** The state a result carries, and the calls a call of the target made. *)
Definition final {A} (r : result state A) : state :=
  match r with
  | Done _ s' => s'
  | Halt _ s' => s'
  end.
Definition calls (w : world) (data : list byte) (s : state) : list event :=
  drop (length (trace s)) (trace (final (LLVMFuzzerTestOneInput w data s))).

(** The calls of lines 250-270, and of the target as a whole. *)
Definition document_events (w : world) (size : Z) (r : reads) : list event :=
  match docBuffer r, docUrl r with
  | None, _ => exit_events
  | Some _, None => []
  | Some _, Some url =>
      if dash_first url then exit_events
      else main_events w (arguments size r ++ [Some url; None]) ++ exit_events
  end.
Definition target_calls (w : world) (data : list byte) (s : state)
  : list event :=
  let size := Z.of_nat (length data) in
  register_events (initialized s) ++ create_url_events w data ++
  xmlMemUsed ::
  (if negb (memUsed w =? 0) then
     [fprintf_stderr
        (String.append "Undetected leak in previous iteration"
                       (String "010"%char EmptyString))]
   else if negb (malloc_succeeds w) then [malloc capacity]
   else [malloc capacity; xmlFuzzDataInit data size] ++
        document_events w size (read_all w data (fuzz s))).

(** The arguments in front of the options: two fixed strings, the selected
    switches and the mode. *)
Definition leading (r : reads) : list cptr :=
  [Some "xmllint"%string; Some "--nocatalogs"%string] ++
  r_switches r ++ mode_args (r_uval r).

(** The strings lines 255-257 push. *)
Definition document_args (r : reads) : list cptr :=
  match docBuffer r, docUrl r with
  | Some _, Some url => if dash_first url then [] else [Some url; None]
  | _, _ => []
  end.

(** The three flags of lines 195, 199 and 203, and the number of cells of an
    argument array that hold one of them. *)
Definition mode_flags : list cptr :=
  [Some "--html"%string; Some "--stream"%string; Some "--sax"%string].
Definition mode_flag_count (cells : list (option cptr)) : nat :=
  length (filter (fun c => c ∈ (Some <$> mode_flags)) cells).

(** The strings the block holds below [argi]. *)
Definition stored (s : state) : list (option cptr) :=
  take (argi (vars s)) (default [] (argv (vars s))).

End target.

End Lint.

(** ** A reader of fuzz data over bytes *)

Module ByteReader.

(** Modelled from the spec: fuzz.c, which defines [xmlFuzzDataInit],
    [xmlFuzzReadInt], [xmlFuzzReadString], [xmlFuzzReadEntities],
    [xmlFuzzMainEntity], [xmlFuzzMainUrl] and [xmlFuzzDataCleanup], is not
    among the sources. The spec lays the input out as "switches: 8 bytes,
    maxmem: 4 bytes, maxAmpl: 1 byte, pretty: 1 byte, remainder: document
    entities", with "up to three arbitrary strings" before the entities and
    the first entity as the main document. This reader takes an integer most
    significant byte first and a string up to a backslash followed by a
    newline. It is what the targets are run on for concrete bytes; the
    properties of lint.c are proved for every reader that meets
    [fuzz_api_ok]. *)
Record fuzz_data : Type := mk_fuzz_data {
  ptr : list byte;
  mainUrl : cptr;
  mainEntity : cptr
}.

Definition backslash : byte := "\"%byte.
Definition newline : byte := x0a.

(** At most [n] bytes, each shifted in below the ones before it. *)
Fixpoint read_int (n : nat) (p : list byte) (ret : Z) : Z * list byte :=
  match n, p with
  | S n', c :: p' =>
      read_int n' p' (to_size_t (Z.lor (Z.shiftl ret 8) (Z.of_N (Byte.to_N c))))
  | _, _ => (ret, p)
  end.

(** The bytes up to the terminator, a doubled backslash standing for one;
    [None] when the data ends before anything was read. *)
Fixpoint read_string (p out : list byte) : option (list byte) * list byte :=
  match p with
  | [] => (match out with [] => None | _ => Some out end, [])
  | c :: p' =>
      if Byte.eqb c backslash then
        match p' with
        | c2 :: p'' =>
            if Byte.eqb c2 newline then (Some out, p'')
            else if Byte.eqb c2 backslash then read_string p'' (out ++ [c])
            else read_string p' (out ++ [c])
        | [] => read_string p' (out ++ [c])
        end
      else read_string p' (out ++ [c])
  end.

(** The C string that starts where the bytes [bs] are stored. *)
Fixpoint c_string (bs : list byte) : string :=
  match bs with
  | [] => EmptyString
  | c :: bs' =>
      if Byte.eqb c x00 then EmptyString
      else String (ascii_of_byte c) (c_string bs')
  end.

(** Pairs of URL and content; the first pair whose URL is shorter than 50
    bytes is the main entity. *)
Fixpoint read_entities (fuel : nat) (fd : fuzz_data) : fuzz_data :=
  match fuel with
  | O => fd
  | S fuel' =>
      match read_string (ptr fd) [] with
      | (None, p1) => mk_fuzz_data p1 (mainUrl fd) (mainEntity fd)
      | (Some url, p1) =>
          match read_string p1 [] with
          | (None, p2) => mk_fuzz_data p2 (mainUrl fd) (mainEntity fd)
          | (Some entity, p2) =>
              if bool_decide (length url < 50)%nat &&
                 bool_decide (mainUrl fd = None)
              then read_entities fuel'
                     (mk_fuzz_data p2 (Some (c_string url))
                                      (Some (c_string entity)))
              else read_entities fuel'
                     (mk_fuzz_data p2 (mainUrl fd) (mainEntity fd))
          end
      end
  end.

Definition api : fuzz_api := {|
  fuzzData := fuzz_data;
  fuzzDataInit := fun data _ => mk_fuzz_data data None None;
  xmlFuzzReadInt := fun size fd =>
    let '(ret, p) := read_int (Z.to_nat size) (ptr fd) 0 in
    (ret, mk_fuzz_data p (mainUrl fd) (mainEntity fd));
  xmlFuzzReadString := fun fd =>
    let '(out, p) := read_string (ptr fd) [] in
    (c_string <$> out, Z.of_nat (length (default [] out)),
     mk_fuzz_data p (mainUrl fd) (mainEntity fd));
  xmlFuzzReadEntities := fun fd => read_entities (length (ptr fd)) fd;
  xmlFuzzMainEntity := mainEntity;
  xmlFuzzMainUrl := mainUrl;
  fuzzDataCleanup := fun fd => mk_fuzz_data [] None None
|}.

(** The reader before the first call of a target. *)
Definition idle : fuzz_data := mk_fuzz_data [] None None.

End ByteReader.

(** ** Inputs the targets are run on *)

Module Samples.

(** A world without a leak, in which [malloc] succeeds and the direct call
    leaves [NULL] in [out]. *)
Definition quiet : world := {|
  createUrl_out := fun _ => None;
  memUsed := 0;
  malloc_succeeds := true;
  uval_indeterminate := 0;
  LIBXML_CATALOG_ENABLED := true
|}.


Definition bytes (s : string) : list byte :=
  byte_of_ascii <$> String.list_ascii_of_string s.

(** A string of the input, with its terminator. *)
Definition str (s : string) : list byte :=
  bytes s ++ [ByteReader.backslash; ByteReader.newline].

(** All of the first 32 switches, [uval & 3 == 1] after the loop, the three
    numeric options, [--sax] as the value of [--encode], no pattern, an
    XPath expression and a document. *)
Definition html_with_sax_encoding : list byte :=
  [xff; xff; xff; xff; x00; x00; x80; x00] ++ [x00; x00; x01; x00] ++
  [x03] ++ [x07] ++ str "--sax" ++ str "" ++ str "//a" ++
  str "doc.xml" ++ str "<a/>".

(** Every bit of the switches chunk set and nothing after it. *)
Definition every_switch : list byte := replicate 8 xff.


(** No switch and no option; a document. *)
Definition plain_document : list byte :=
  replicate 14 x00 ++ str "" ++ str "" ++ str "" ++
  str "doc.xml" ++ str "<a/>".

(** The array [xmllintMain] is handed for [html_with_sax_encoding]. *)
Definition html_with_sax_cells : list (option cptr) :=
  (Some <$>
     [Some "xmllint"; Some "--nocatalogs"; Some "--auto"; Some "--c14n";
      Some "--c14n11"; Some "--compress"; Some "--copy"; Some "--debug";
      Some "--dropdtd"; Some "--dtdattr"; Some "--exc-c14n";
      Some "--format"; Some "--huge"; Some "--insert"; Some "--loaddtd";
      Some "--load-trace"; Some "--noblanks"; Some "--nocdata";
      Some "--nocompact"; Some "--nodefdtd"; Some "--nodict";
      Some "--noenc"; Some "--noent"; Some "--nofixup-base-uris";
      Some "--nonet"; Some "--noout"; Some "--nowarning";
      Some "--noxincludenode"; Some "--nsclean"; Some "--oldxml10";
      Some "--html"; Some "--maxmem"; Some "256"; Some "--max-ampl";
      Some "3"; Some "--pretty"; Some "3"; Some "--encode"; Some "--sax";
      Some "--xpath"; Some "//a"; Some "doc.xml"; None]%string) ++
  replicate 21 None.

(** The CLI target before its first call, over the reader of bytes. *)
Definition fresh : Lint.state ByteReader.api :=
  Lint.start ByteReader.api ByteReader.idle.

End Samples.

(** ** tree.h: the properties of a document *)

Module DocProperties.

(** [typedef enum { ... } xmlDocProperties;] (tree.h, lines 578-595). *)
Inductive xmlDocProperties : Set :=
| XML_DOC_WELLFORMED
| XML_DOC_NSVALID
| XML_DOC_OLD10
| XML_DOC_DTDVALID
| XML_DOC_XINCLUDE
| XML_DOC_USERBUILT
| XML_DOC_INTERNAL
| XML_DOC_HTML.

#[global] Instance xmlDocProperties_eq_dec : EqDecision xmlDocProperties.
Proof. solve_decision. Defined.

(** The integer each enumerator is declared with. *)
Definition xmlDocProperties_value (p : xmlDocProperties) : Z :=
  match p with
  | XML_DOC_WELLFORMED => Z.shiftl 1 0
  | XML_DOC_NSVALID => Z.shiftl 1 1
  | XML_DOC_OLD10 => Z.shiftl 1 2
  | XML_DOC_DTDVALID => Z.shiftl 1 3
  | XML_DOC_XINCLUDE => Z.shiftl 1 4
  | XML_DOC_USERBUILT => Z.shiftl 1 5
  | XML_DOC_INTERNAL => Z.shiftl 1 6
  | XML_DOC_HTML => Z.shiftl 1 7
  end.

(** [int properties] of [struct _xmlDoc] (line 661) is the set of the
    properties of the document: the enumerators of the set, or-ed. *)
Definition properties_of (ps : list xmlDocProperties) : Z :=
  foldr (fun p acc => Z.lor (xmlDocProperties_value p) acc) 0 ps.

(** [properties & p], as a truth value. *)
Definition has_property (properties : Z) (p : xmlDocProperties) : bool :=
  negb (Z.land properties (xmlDocProperties_value p) =? 0).

End DocProperties.

(** ** fuzz/lint.c: the initializer and the mutator *)

Module LintInit.

(** The calls of [LLVMFuzzerInitialize]. *)
Variant call : Type :=
| open_dev_null
| perror (s : string)
| dup2_stdout (fd : Z)
| close (fd : Z).

(** What the system answers: the descriptor [open] returns and the value
    of [dup2(fd, STDOUT_FILENO)]. *)
Record os : Type := {
  open_result : Z;
  dup2_result : Z -> Z
}.

Definition emit (c : call) : M (list call) unit :=
  fun t => Done tt (t ++ [c]).
Definition stop {A} (h : halt) : M (list call) A :=
  fun t => Halt h t.

(** Lines 104-122. *)
Definition LLVMFuzzerInitialize (w : os) : M (list call) Z :=
  emit open_dev_null;;
  let fd := open_result w in
  (if fd =? -1 then emit (perror "/dev/null");; stop Abort else mret tt);;
  emit (dup2_stdout fd);;
  (if dup2_result w fd =? -1 then emit (perror "dup2");; stop Abort
   else mret tt);;
  emit (close fd);;
  mret 0.

End LintInit.

Module LintMutator.

(** [xmlFuzzChunkDesc] is declared in fuzz.h: a size in bytes and the
    probability of a mutation. *)
Record xmlFuzzChunkDesc : Type := mk_chunk {
  size : Z;
  mutateProb : Z
}.

(** Lines 277-283, for the value of the macro [XML_FUZZ_PROB_ONE]. *)
Definition chunks (XML_FUZZ_PROB_ONE : Z) : list xmlFuzzChunkDesc := [
  mk_chunk 8 (Z.quot XML_FUZZ_PROB_ONE 10);
  mk_chunk 4 (Z.quot XML_FUZZ_PROB_ONE 10);
  mk_chunk 1 (Z.quot XML_FUZZ_PROB_ONE 100);
  mk_chunk 1 (Z.quot XML_FUZZ_PROB_ONE 100);
  mk_chunk 0 0
].

(** Lines 274-287; [xmlFuzzMutateChunks] is defined in fuzz.c. *)
Definition LLVMFuzzerCustomMutator (XML_FUZZ_PROB_ONE : Z)
    (xmlFuzzMutateChunks :
       list xmlFuzzChunkDesc -> list byte -> Z -> Z -> Z -> Z)
    (data : list byte) (size maxSize seed : Z) : Z :=
  xmlFuzzMutateChunks (chunks XML_FUZZ_PROB_ONE) data size maxSize seed.

End LintMutator.

(** ** fuzz/lint.c: the reads of the target, observed *)

Module Observed.

(** The reader [F] with a record of the sizes [xmlFuzzReadInt] was asked
    for since [xmlFuzzDataInit]. *)
Definition recording (F : fuzz_api) : fuzz_api := {|
  fuzzData := fuzzData F * list Z;
  fuzzDataInit := fun data st => (fuzzDataInit F data st.1, []);
  xmlFuzzReadInt := fun n st =>
    ((xmlFuzzReadInt F n st.1).1,
     ((xmlFuzzReadInt F n st.1).2, st.2 ++ [n]));
  xmlFuzzReadString := fun st =>
    ((xmlFuzzReadString F st.1).1, ((xmlFuzzReadString F st.1).2, st.2));
  xmlFuzzReadEntities := fun st => (xmlFuzzReadEntities F st.1, st.2);
  xmlFuzzMainEntity := fun st => xmlFuzzMainEntity F st.1;
  xmlFuzzMainUrl := fun st => xmlFuzzMainUrl F st.1;
  fuzzDataCleanup := fun st => (fuzzDataCleanup F st.1, st.2)
|}.

(** The entries of [sw] that are strings and whose bit of [u] is set, the
    first entry standing at bit [k]. *)
Fixpoint picked (u k : Z) (sw : list cptr) : list cptr :=
  match sw with
  | [] => []
  | x :: sw' =>
      (if Z.testbit u k && bool_decide (x <> None) then [x] else []) ++
      picked u (k + 1) sw'
  end.

(** The number of calls of an event of a given kind in a trace. *)
Definition count_calls (f : event -> bool) (t : list event) : nat :=
  length (List.filter f t).
Definition is_malloc (e : event) : bool :=
  match e with malloc _ => true | _ => false end.
Definition is_free_argv (e : event) : bool :=
  match e with free_argv => true | _ => false end.
Definition is_main (e : event) : bool :=
  match e with xmllintMain _ _ => true | _ => false end.
Definition is_data_init (e : event) : bool :=
  match e with xmlFuzzDataInit _ _ => true | _ => false end.
Definition is_cleanup (e : event) : bool :=
  match e with xmlFuzzDataCleanup => true | _ => false end.

(** The guard of the direct call, [size > 0 && data[size - 1] == '\0'], for
    an input of a run. *)
Definition accepted (input : world * list byte) : bool :=
  (0 <? Z.of_nat (length input.2)) &&
  is_nul_at input.2 (Z.of_nat (length input.2) - 1).

End Observed.

(** * Properties *)

(** ** The monad *)

Section monad_facts.
Context {S : Type}.

Lemma bind_Done {A B} (m : M S A) (f : A -> M S B) s a s' :
  m s = Done a s' -> (m ≫= f) s = f a s'.
Proof. unfold mbind, M_bind. intros ->. reflexivity. Qed.

Lemma bind_Halt {A B} (m : M S A) (f : A -> M S B) s h s' :
  m s = Halt h s' -> (m ≫= f) s = Halt h s'.
Proof. unfold mbind, M_bind. intros ->. reflexivity. Qed.

Lemma bind_inv_Done {A B} (m : M S A) (f : A -> M S B) s b s2 :
  (m ≫= f) s = Done b s2 ->
  exists a s1, m s = Done a s1 /\ f a s1 = Done b s2.
Proof.
  unfold mbind, M_bind. destruct (m s) as [a s1|h s1]; [|discriminate].
  intros H. exists a, s1. split; [reflexivity|exact H].
Qed.

End monad_facts.

(** ** lint.c: pushing into the argument array *)

Section lint_push.
Import Lint.
Context (F : fuzz_api).

Lemma capacity_eq : capacity = 64%nat.
Proof. reflexivity. Qed.

Lemma filled_cells_length l :
  (length l <= capacity)%nat ->
  length ((Some <$> l) ++ replicate (capacity - length l) (@None cptr))
  = capacity.
Proof.
  intros Hl. rewrite length_app, length_fmap, length_replicate. lia.
Qed.

Lemma filled_snoc l (str : cptr) :
  (length l < capacity)%nat ->
  mk_vars
    (Some (<[length l := Some str]>
             ((Some <$> l) ++ replicate (capacity - length l) None)))
    (Datatypes.S (length l))
  = filled (l ++ [str]).
Proof.
  intros Hl. unfold filled. rewrite length_app. simpl length.
  replace (length l + 1)%nat with (Datatypes.S (length l)) by lia.
  f_equal. f_equal.
  rewrite insert_app_r_alt by (rewrite length_fmap; lia).
  rewrite length_fmap, Nat.sub_diag.
  destruct (capacity - length l)%nat as [|k] eqn:Hk; [lia|].
  replace (capacity - Datatypes.S (length l))%nat with k by lia.
  simpl. rewrite fmap_app, <- app_assoc. reflexivity.
Qed.

(** A push into a block that has a free cell stores the pointer in the
    first free cell and moves [argi] past it. *)
Lemma pushArg_filled (s : state F) l str :
  vars F s = filled l -> (length l < capacity)%nat ->
  pushArg F str s = Done tt (pushed F s (l ++ [str]) (fuzz F s)).
Proof.
  intros Hv Hl. unfold pushArg.
  rewrite (bind_Done _ _ s (vars F s) s) by reflexivity.
  rewrite Hv. cbn [argv argi filled].
  rewrite filled_cells_length by lia.
  destruct (decide (length l < capacity)%nat) as [_|]; [|lia].
  unfold set_vars, pushed. rewrite filled_snoc by lia. reflexivity.
Qed.

End lint_push.

(** ** lint.c: the blocks of the target against their functional reading *)

Section lint_blocks.
Import Lint.
Context (F : fuzz_api).

Lemma pushArg_pushed (s : state F) l fd str :
  (length l < capacity)%nat ->
  pushArg F str (pushed F s l fd) = Done tt (pushed F s (l ++ [str]) fd).
Proof. intros Hl. apply (pushArg_filled F (pushed F s l fd) l str); done. Qed.

Lemma pushArg2_pushed (s : state F) l fd str1 str2 :
  (length l + 2 <= capacity)%nat ->
  (pushArg F str1 ;; pushArg F str2) (pushed F s l fd)
  = Done tt (pushed F s (l ++ [str1; str2]) fd).
Proof.
  intros Hl. erewrite bind_Done by (apply pushArg_pushed; lia).
  rewrite pushArg_pushed by (rewrite length_app; simpl; lia).
  rewrite <- app_assoc. reflexivity.
Qed.

Lemma reader_pushed {A} (f : fuzzData F -> A * fuzzData F) (s : state F) l fd :
  reader F f (pushed F s l fd) = Done (f fd).1 (pushed F s l (f fd).2).
Proof. unfold reader. cbn [fuzz pushed]. destruct (f fd); reflexivity. Qed.

Lemma selected_length sw i uval fd :
  (length (selected F sw i uval fd).1.1 <= length sw)%nat.
Proof.
  revert i uval fd. induction sw as [|x sw IH]; intros i uval fd; [simpl; lia|].
  cbn [selected].
  destruct (i mod 32 =? 0);
    match goal with
    | |- context [selected F sw ?j ?u ?d] =>
        specialize (IH j u d); destruct (selected F sw j u d) as [[l u'] d']
    end;
    cbn [fst snd] in *; rewrite length_app;
    match goal with |- context [if ?b then _ else _] => destruct b end;
    simpl; lia.
Qed.

Lemma for_switches_pushed sw : forall i uval (s : state F) l fd,
  (length l + length sw <= capacity)%nat ->
  for_switches F sw i uval (pushed F s l fd)
  = Done (selected F sw i uval fd).1.2
         (pushed F s (l ++ (selected F sw i uval fd).1.1)
                 (selected F sw i uval fd).2).
Proof.
  induction sw as [|x sw IH]; intros i uval s l fd Hl.
  - simpl. rewrite app_nil_r. reflexivity.
  - cbn [for_switches selected]. simpl length in Hl.
    destruct (i mod 32 =? 0).
    + erewrite bind_Done; cycle 1.
      { erewrite bind_Done by apply reader_pushed. reflexivity. }
      set (u := to_unsigned (xmlFuzzReadInt F 4 fd).1).
      set (fd1 := (xmlFuzzReadInt F 4 fd).2).
      destruct (negb (Z.land u 1 =? 0) && bool_decide (x <> None)).
      * erewrite bind_Done by (apply pushArg_pushed; lia).
        rewrite IH by (rewrite length_app; simpl; lia).
        destruct (selected F sw (i + 1) (Z.shiftr u 1) fd1) as [[l' u'] fd'].
        cbn [fst snd]. rewrite <- app_assoc. reflexivity.
      * erewrite bind_Done by reflexivity.
        rewrite IH by lia.
        destruct (selected F sw (i + 1) (Z.shiftr u 1) fd1) as [[l' u'] fd'].
        reflexivity.
    + erewrite bind_Done by reflexivity.
      destruct (negb (Z.land uval 1 =? 0) && bool_decide (x <> None)).
      * erewrite bind_Done by (apply pushArg_pushed; lia).
        rewrite IH by (rewrite length_app; simpl; lia).
        destruct (selected F sw (i + 1) (Z.shiftr uval 1) fd) as [[l' u'] fd'].
        cbn [fst snd]. rewrite <- app_assoc. reflexivity.
      * erewrite bind_Done by reflexivity.
        rewrite IH by lia.
        destruct (selected F sw (i + 1) (Z.shiftr uval 1) fd) as [[l' u'] fd'].
        reflexivity.
Qed.

Lemma land_3_cases uval :
  Z.land uval 3 = 0 \/ Z.land uval 3 = 1 \/ Z.land uval 3 = 2 \/
  Z.land uval 3 = 3.
Proof.
  assert (Z.land uval 3 = uval mod 4) as ->
    by (change 3 with (Z.ones 2); rewrite Z.land_ones by lia; reflexivity).
  pose proof (Z.mod_pos_bound uval 4 ltac:(lia)). lia.
Qed.

Lemma mode_args_length uval : (length (mode_args uval) <= 1)%nat.
Proof.
  unfold mode_args.
  destruct (land_3_cases uval) as [H|[H|[H|H]]]; rewrite H; simpl; lia.
Qed.

Lemma push_mode_pushed uval (s : state F) l fd :
  (length l < capacity)%nat ->
  push_mode F uval (pushed F s l fd)
  = Done tt (pushed F s (l ++ mode_args uval) fd).
Proof.
  intros Hl. unfold push_mode, mode_args.
  destruct (land_3_cases uval) as [H|[H|[H|H]]]; rewrite H;
    first [ apply pushArg_pushed; lia
          | rewrite app_nil_r; reflexivity ].
Qed.

Lemma push_maxmem_pushed size (s : state F) l fd :
  (length l + 2 <= capacity)%nat ->
  push_maxmem F size (pushed F s l fd)
  = Done tt (pushed F s (l ++ maxmem_args size (xmlFuzzReadInt F 4 fd).1)
                    (xmlFuzzReadInt F 4 fd).2).
Proof.
  intros Hl. unfold push_maxmem, maxmem_args, maxmem_value.
  erewrite bind_Done by apply reader_pushed.
  destruct (0 <? to_unsigned (xmlFuzzReadInt F 4 fd).1).
  - apply pushArg2_pushed; lia.
  - rewrite app_nil_r. reflexivity.
Qed.

Lemma push_max_ampl_pushed (s : state F) l fd :
  (length l + 2 <= capacity)%nat ->
  push_max_ampl F (pushed F s l fd)
  = Done tt (pushed F s (l ++ max_ampl_args (xmlFuzzReadInt F 1 fd).1)
                    (xmlFuzzReadInt F 1 fd).2).
Proof.
  intros Hl. unfold push_max_ampl, max_ampl_args.
  erewrite bind_Done by apply reader_pushed.
  destruct ((1 <=? to_int (xmlFuzzReadInt F 1 fd).1) &&
            (to_int (xmlFuzzReadInt F 1 fd).1 <=? 5)).
  - apply pushArg2_pushed; lia.
  - rewrite app_nil_r. reflexivity.
Qed.

Lemma push_pretty_pushed (s : state F) l fd :
  (length l + 2 <= capacity)%nat ->
  push_pretty F (pushed F s l fd)
  = Done tt (pushed F s (l ++ pretty_args (xmlFuzzReadInt F 1 fd).1)
                    (xmlFuzzReadInt F 1 fd).2).
Proof.
  intros Hl. unfold push_pretty, pretty_args.
  erewrite bind_Done by apply reader_pushed.
  destruct (negb (to_int (xmlFuzzReadInt F 1 fd).1 =? 0)).
  - apply pushArg2_pushed; lia.
  - rewrite app_nil_r. reflexivity.
Qed.

Lemma push_string_pushed option (s : state F) l fd :
  (length l + 2 <= capacity)%nat ->
  push_string F option (pushed F s l fd)
  = Done tt (pushed F s (l ++ string_args option (xmlFuzzReadString F fd).1)
                    (xmlFuzzReadString F fd).2).
Proof.
  intros Hl. unfold push_string, string_args.
  erewrite bind_Done by apply reader_pushed.
  destruct (xmlFuzzReadString F fd) as [[sval ssize] fd']. cbn [fst snd].
  destruct (0 <? ssize).
  - apply pushArg2_pushed; lia.
  - rewrite app_nil_r. reflexivity.
Qed.

End lint_blocks.

(** ** lint.c: the target as a whole *)

Section lint_target.
Import Lint.
Context (F : fuzz_api).

Lemma emit_pushed e (s : state F) l fd :
  emit F e (pushed F s l fd) = Done tt (pushed F (logs F s [e]) l fd).
Proof. reflexivity. Qed.

Lemma logs_logs (s : state F) es es' :
  logs F (logs F s es) es' = logs F s (es ++ es').
Proof. unfold logs. cbn. rewrite <- app_assoc. reflexivity. Qed.

Lemma pushed_logs (s : state F) es l fd :
  logs F (pushed F s l fd) es = pushed F (logs F s es) l fd.
Proof. reflexivity. Qed.

Lemma try_create_url_spec w data (s : state F) :
  try_create_url F w data s
  = Done tt (mk_state F (registered (initialized F s)) (vars F s) (fuzz F s)
               (trace F s ++ register_events (initialized F s) ++
                create_url_events w data)).
Proof.
  unfold try_create_url, register_events, registered, create_url_events.
  erewrite bind_Done by reflexivity.
  destruct s as [init v fd t]. cbn [initialized vars fuzz trace].
  destruct (init =? 0);
    destruct ((0 <? Z.of_nat (length data)) &&
              is_nul_at data (Z.of_nat (length data) - 1));
    destruct (createUrl_out w data);
    unfold mbind, M_bind, mret, M_ret, emit, set_initialized;
    cbn; rewrite <- ?app_assoc, ?app_nil_r; reflexivity.
Qed.

Lemma leak_check_spec w (s : state F) :
  leak_check F w s
  = if memUsed w =? 0
    then Done tt (logs F s [xmlMemUsed])
    else Halt Abort
           (logs F s [xmlMemUsed;
                      fprintf_stderr
                        (String.append "Undetected leak in previous iteration"
                                       (String "010"%char EmptyString))]).
Proof.
  unfold leak_check. erewrite bind_Done by reflexivity.
  destruct (memUsed w =? 0); cbn; [reflexivity|].
  unfold mbind, M_bind, emit, stop, logs. cbn.
  rewrite <- app_assoc. reflexivity.
Qed.

Lemma exit_pushed (s : state F) l fd :
  Lint.exit F (pushed F s l fd)
  = Done 0 (pushed F (logs F s exit_events) l (fuzzDataCleanup F fd)).
Proof.
  unfold Lint.exit. erewrite bind_Done by apply reader_pushed.
  cbn [fst snd]. erewrite bind_Done by apply emit_pushed.
  erewrite bind_Done by apply emit_pushed.
  rewrite logs_logs. reflexivity.
Qed.

Lemma maxmem_args_length size v : (length (maxmem_args size v) <= 2)%nat.
Proof. unfold maxmem_args. destruct (0 <? to_unsigned v); simpl; lia. Qed.

Lemma max_ampl_args_length v : (length (max_ampl_args v) <= 2)%nat.
Proof.
  unfold max_ampl_args.
  destruct ((1 <=? to_int v) && (to_int v <=? 5)); simpl; lia.
Qed.

Lemma pretty_args_length v : (length (pretty_args v) <= 2)%nat.
Proof. unfold pretty_args. destruct (negb (to_int v =? 0)); simpl; lia. Qed.

Lemma string_args_length option r : (length (string_args option r) <= 2)%nat.
Proof. unfold string_args. destruct (0 <? r.2); simpl; lia. Qed.

(** The state in which lines 171-248 leave the target when the allocation
    succeeds: a fresh block that holds [arguments]. *)
Lemma build_args_spec w data (s : state F) :
  malloc_succeeds w = true ->
  build_args F w data s
  = Done tt
      (pushed F
         (logs F s [malloc capacity;
                    xmlFuzzDataInit data (Z.of_nat (length data))])
         (arguments F (Z.of_nat (length data)) (read_all F w data (fuzz F s)))
         (r_fuzz F (read_all F w data (fuzz F s)))).
Proof.
  intros Hm. unfold build_args, read_all, arguments, option_args.
  rewrite Hm.
  do 5 (erewrite bind_Done by reflexivity).
  cbn [argi argv vars initialized fuzz trace].
  change (mk_state F (initialized F s)
            (mk_vars (Some (replicate (numSwitches + 5 + 6 * 2) None)) 0)
            (fuzz F s) (trace F s ++ [malloc (numSwitches + 5 + 6 * 2)]))
    with (pushed F (logs F s [malloc capacity]) [] (fuzz F s)).
  set (s1 := logs F s [malloc capacity]).
  generalize (fuzz F s). intros fd0.
  erewrite bind_Done by (apply pushArg_pushed; rewrite capacity_eq; simpl; lia).
  erewrite bind_Done by (apply pushArg_pushed; rewrite capacity_eq; simpl; lia).
  erewrite bind_Done by apply reader_pushed. cbn [fst snd].
  erewrite bind_Done by apply emit_pushed.
  generalize (fuzzDataInit F data fd0). clear fd0. intros fd0.
  set (size := Z.of_nat (length data)).
  pose proof (selected_length F switches 0 (uval_indeterminate w) fd0) as Hsw.
  erewrite bind_Done
    by (apply for_switches_pushed; rewrite capacity_eq; simpl; lia).
  destruct (selected F switches 0 (uval_indeterminate w) fd0)
    as [[sw uval] fd1].
  cbn [fst snd] in *. change (length switches) with 47%nat in Hsw.
  pose proof (mode_args_length uval) as Hmode.
  erewrite bind_Done
    by (apply push_mode_pushed; rewrite capacity_eq, !length_app; simpl; lia).
  pose proof (maxmem_args_length size (xmlFuzzReadInt F 4 fd1).1) as Hmm.
  erewrite bind_Done
    by (apply push_maxmem_pushed; rewrite capacity_eq, !length_app; simpl; lia).
  destruct (xmlFuzzReadInt F 4 fd1) as [maxmem fd2]. cbn [fst snd] in *.
  pose proof (max_ampl_args_length (xmlFuzzReadInt F 1 fd2).1) as Hma.
  erewrite bind_Done
    by (apply push_max_ampl_pushed; rewrite capacity_eq, !length_app;
        simpl; lia).
  destruct (xmlFuzzReadInt F 1 fd2) as [max_ampl fd3]. cbn [fst snd] in *.
  pose proof (pretty_args_length (xmlFuzzReadInt F 1 fd3).1) as Hpr.
  erewrite bind_Done
    by (apply push_pretty_pushed; rewrite capacity_eq, !length_app;
        simpl; lia).
  destruct (xmlFuzzReadInt F 1 fd3) as [pretty fd4]. cbn [fst snd] in *.
  pose proof (string_args_length "--encode" (xmlFuzzReadString F fd4).1) as He.
  erewrite bind_Done
    by (apply push_string_pushed; rewrite capacity_eq, !length_app;
        simpl; lia).
  destruct (xmlFuzzReadString F fd4) as [encode fd5]. cbn [fst snd] in *.
  pose proof (string_args_length "--pattern" (xmlFuzzReadString F fd5).1)
    as Hp.
  erewrite bind_Done
    by (apply push_string_pushed; rewrite capacity_eq, !length_app;
        simpl; lia).
  destruct (xmlFuzzReadString F fd5) as [pattern fd6]. cbn [fst snd] in *.
  pose proof (string_args_length "--xpath" (xmlFuzzReadString F fd6).1) as Hx.
  rewrite push_string_pushed
    by (rewrite capacity_eq, !length_app; simpl; lia).
  destruct (xmlFuzzReadString F fd6) as [xpath fd7]. cbn [fst snd] in *.
  subst s1. rewrite logs_logs. cbn [r_switches r_uval r_maxmem r_max_ampl r_pretty
                          r_encode r_pattern r_xpath r_fuzz].
  f_equal. f_equal. simpl. rewrite <- !app_assoc. reflexivity.
Qed.

Lemma selected_sublist sw : forall i uval fd,
  (selected F sw i uval fd).1.1 `sublist_of` filter (fun x => x <> None) sw.
Proof.
  induction sw as [|x sw IH]; intros i uval fd; [simpl; constructor|].
  cbn [selected].
  destruct (i mod 32 =? 0);
    match goal with
    | |- context [selected F sw ?j ?u ?d] =>
        specialize (IH j u d); destruct (selected F sw j u d) as [[l u'] d']
    end;
    cbn [fst snd] in *;
    match goal with
    | |- context [negb ?a && bool_decide ?P] =>
        destruct (negb a); cbn [andb]; [case_bool_decide|]
    end;
    try (rewrite filter_cons_True by done; simpl; by apply sublist_skip);
    simpl; destruct (decide (x <> None));
    rewrite ?filter_cons_True, ?filter_cons_False by done;
    try done; by apply sublist_cons.
Qed.

Lemma switches_strings_length :
  length (filter (fun x : cptr => x <> None) switches) = 42%nat.
Proof. reflexivity. Qed.

Lemma arguments_length size (r : reads F) :
  r_switches F r `sublist_of` filter (fun x => x <> None) switches ->
  (length (arguments F size r) <= 57)%nat.
Proof.
  intros Hsw%sublist_length. rewrite switches_strings_length in Hsw.
  unfold arguments, option_args. rewrite !length_app. simpl length.
  pose proof (mode_args_length (r_uval F r)).
  pose proof (maxmem_args_length size (r_maxmem F r)).
  pose proof (max_ampl_args_length (r_max_ampl F r)).
  pose proof (pretty_args_length (r_pretty F r)).
  pose proof (string_args_length "--encode" (r_encode F r)).
  pose proof (string_args_length "--pattern" (r_pattern F r)).
  pose proof (string_args_length "--xpath" (r_xpath F r)).
  lia.
Qed.

Lemma read_all_switches w data fd :
  r_switches F (read_all F w data fd)
  `sublist_of` filter (fun x => x <> None) switches.
Proof.
  unfold read_all.
  pose proof (selected_sublist switches 0 (uval_indeterminate w)
                (fuzzDataInit F data fd)) as H.
  destruct (selected F switches 0 (uval_indeterminate w)
              (fuzzDataInit F data fd)) as [[sw uval] fd1].
  repeat match goal with
         | |- context [let '(_, _) := ?x in _] => destruct x
         end.
  exact H.
Qed.

Lemma run_document_pushed w (s : state F) l fd :
  (length l + 2 <= capacity)%nat ->
  run_document F w (pushed F s l fd)
  = let fd' := xmlFuzzReadEntities F fd in
    match xmlFuzzMainEntity F fd', xmlFuzzMainUrl F fd' with
    | None, _ =>
        Done 0 (pushed F (logs F s exit_events) l (fuzzDataCleanup F fd'))
    | Some _, None => Halt NullLoad (pushed F s l fd')
    | Some _, Some url =>
        if dash_first url
        then Done 0 (pushed F (logs F s exit_events) l
                            (fuzzDataCleanup F fd'))
        else Done 0 (pushed F (logs F s (main_events w (l ++ [Some url; None])
                                         ++ exit_events))
                            (l ++ [Some url; None]) (fuzzDataCleanup F fd'))
    end.
Proof.
  intros Hl. unfold run_document.
  erewrite bind_Done by apply reader_pushed. cbn [fst snd].
  erewrite bind_Done by apply reader_pushed. cbn [fst snd].
  erewrite bind_Done by apply reader_pushed. cbn [fst snd].
  cbv zeta.
  destruct (xmlFuzzMainEntity F (xmlFuzzReadEntities F fd)) as [buf|];
    [|destruct (xmlFuzzMainUrl F (xmlFuzzReadEntities F fd));
      apply exit_pushed].
  destruct (xmlFuzzMainUrl F (xmlFuzzReadEntities F fd)) as [url|];
    [|reflexivity].
  unfold dash_first. destruct (bool_decide (String.get 0 url = Some "-"%char)).
  { apply exit_pushed. }
  erewrite bind_Done by (apply pushArg_pushed; lia).
  erewrite bind_Done
    by (apply pushArg_pushed; rewrite length_app; simpl; lia).
  rewrite <- app_assoc. cbn [app].
  erewrite bind_Done by apply emit_pushed.
  unfold main_events.
  destruct (LIBXML_CATALOG_ENABLED w).
  - erewrite bind_Done by apply emit_pushed.
    erewrite bind_Done by reflexivity.
    erewrite bind_Done by apply emit_pushed.
    erewrite bind_Done by apply emit_pushed.
    rewrite exit_pushed, !logs_logs. reflexivity.
  - erewrite bind_Done by reflexivity.
    erewrite bind_Done by reflexivity.
    erewrite bind_Done by apply emit_pushed.
    erewrite bind_Done by apply emit_pushed.
    rewrite exit_pushed, !logs_logs. reflexivity.
Qed.

Lemma build_args_no_block w data (s : state F) :
  malloc_succeeds w = false ->
  build_args F w data s
  = Halt NullStore
      (mk_state F (initialized F s) (mk_vars None 0) (fuzz F s)
                (trace F s ++ [malloc capacity])).
Proof. intros Hm. unfold build_args. rewrite Hm. reflexivity. Qed.

(** The target computes [target_result]. *)
Lemma target_spec w data (s : state F) :
  LLVMFuzzerTestOneInput F w data s = target_result F w data s.
Proof.
  unfold LLVMFuzzerTestOneInput, target_result.
  erewrite bind_Done by apply try_create_url_spec.
  set (s1 := mk_state F _ _ _ _).
  destruct (memUsed w =? 0) eqn:Hmem; cbn [negb].
  - erewrite bind_Done by (rewrite leak_check_spec, Hmem; reflexivity).
    destruct (malloc_succeeds w) eqn:Hm; cbn [negb].
    + erewrite bind_Done by (apply build_args_spec; exact Hm).
      rewrite logs_logs. cbn [app].
      change (fuzz F (logs F s1 [xmlMemUsed])) with (fuzz F s).
      rewrite run_document_pushed; [reflexivity|].
      pose proof (arguments_length (Z.of_nat (length data)) _
                    (read_all_switches w data (fuzz F s))).
      rewrite capacity_eq. lia.
    + erewrite bind_Halt; [reflexivity|].
      rewrite build_args_no_block by exact Hm.
      unfold logs. cbn. rewrite <- app_assoc. reflexivity.
  - erewrite bind_Halt; [reflexivity|].
    rewrite leak_check_spec, Hmem. reflexivity.
Qed.

End lint_target.

(** ** tree.h: the enumeration and the content accessor *)

Section tree_facts.
Import Tree.

Lemma xmlElementType_value_inj t1 t2 :
  xmlElementType_value t1 = xmlElementType_value t2 -> t1 = t2.
Proof. destruct t1, t2; simpl; intros H; first [reflexivity|discriminate H]. Qed.

Lemma xmlElementType_of_Z_value t :
  xmlElementType_of_Z (xmlElementType_value t) = Some t.
Proof. destruct t; reflexivity. Qed.

Lemma xmlElementType_of_Z_Some z t :
  xmlElementType_of_Z z = Some t -> xmlElementType_value t = z.
Proof.
  unfold xmlElementType_of_Z. intros H.
  apply List.find_some in H as [_ H]. lia.
Qed.

(** C8: [xmlElementType] has exactly the twenty members listed, they carry
    the values 1 to 20 in the order of the list, every value from 1 to 20
    and no other is the value of a member, and the value 21 of
    [XML_DOCB_DOCUMENT_NODE] is the value of none. *)
Theorem xmlElementType_twenty_variants :
  List.map xmlElementType_value
    [ XML_ELEMENT_NODE; XML_ATTRIBUTE_NODE; XML_TEXT_NODE;
      XML_CDATA_SECTION_NODE; XML_ENTITY_REF_NODE; XML_ENTITY_NODE;
      XML_PI_NODE; XML_COMMENT_NODE; XML_DOCUMENT_NODE;
      XML_DOCUMENT_TYPE_NODE; XML_DOCUMENT_FRAG_NODE; XML_NOTATION_NODE;
      XML_HTML_DOCUMENT_NODE; XML_DTD_NODE; XML_ELEMENT_DECL;
      XML_ATTRIBUTE_DECL; XML_ENTITY_DECL; XML_NAMESPACE_DECL;
      XML_XINCLUDE_START; XML_XINCLUDE_END ]
  = [1; 2; 3; 4; 5; 6; 7; 8; 9; 10; 11; 12; 13; 14; 15; 16; 17; 18; 19; 20]
  /\ length xmlElementType_all = 20%nat
  /\ NoDup xmlElementType_all
  /\ (forall t : xmlElementType, t ∈ xmlElementType_all)
  /\ (forall t : xmlElementType, 1 <= xmlElementType_value t <= 20)
  /\ (forall z : Z,
        is_Some (xmlElementType_of_Z z) <-> 1 <= z <= 20)
  /\ (forall t : xmlElementType,
        xmlElementType_of_Z (xmlElementType_value t) = Some t)
  /\ XML_DOCB_DOCUMENT_NODE = 21
  /\ xmlElementType_of_Z XML_DOCB_DOCUMENT_NODE = None
  /\ (forall t : xmlElementType,
        xmlElementType_value t <> XML_DOCB_DOCUMENT_NODE).
Proof.
  split; [reflexivity|]. split; [reflexivity|].
  split; [apply (bool_decide_unpack _); vm_compute; exact I|].
  split; [intros t; destruct t; apply (bool_decide_unpack _); vm_compute;
          exact I|].
  split; [intros t; destruct t; simpl; lia|].
  split.
  { intros z. split.
    - intros [t Ht]. apply xmlElementType_of_Z_Some in Ht. subst z.
      destruct t; simpl; lia.
    - intros Hz.
      assert (z = 1 \/ z = 2 \/ z = 3 \/ z = 4 \/ z = 5 \/ z = 6 \/ z = 7 \/
              z = 8 \/ z = 9 \/ z = 10 \/ z = 11 \/ z = 12 \/ z = 13 \/
              z = 14 \/ z = 15 \/ z = 16 \/ z = 17 \/ z = 18 \/ z = 19 \/
              z = 20) as Hc by lia.
      repeat (destruct Hc as [->|Hc]; [eexists; reflexivity|]).
      subst z. eexists; reflexivity. }
  split; [exact xmlElementType_of_Z_value|].
  split; [reflexivity|]. split; [reflexivity|].
  intros t; destruct t; unfold XML_DOCB_DOCUMENT_NODE; simpl; lia.
Qed.

(** C9: [XML_GET_CONTENT(n)] is [NULL] when the kind of [n] is
    [XML_ELEMENT_NODE] and is the [content] field of [n] for each of the
    other kinds. *)
Theorem XML_GET_CONTENT_element_or_content (n : xmlNode) :
  XML_GET_CONTENT n
  = match type n with
    | XML_ELEMENT_NODE => None
    | _ => content n
    end.
Proof. unfold XML_GET_CONTENT. destruct (type n); reflexivity. Qed.

End tree_facts.

(** ** The direct call of xmlParserInputBufferCreateUrl *)

Section create_url.

Lemma is_nul_at_spec data i :
  is_nul_at data i = true <-> data !! Z.to_nat i = Some x00.
Proof.
  unfold is_nul_at. destruct (data !! Z.to_nat i) as [c|]; [|done].
  split.
  - intros ->%Byte.byte_dec_bl. reflexivity.
  - intros [= ->]. reflexivity.
Qed.

(** The guard of both targets: [size > 0 && data[size - 1] == '\0']. *)
Lemma guard_spec data :
  (0 <? Z.of_nat (length data)) &&
  is_nul_at data (Z.of_nat (length data) - 1) = true
  <-> 0 < Z.of_nat (length data) /\
      data !! Z.to_nat (Z.of_nat (length data) - 1) = Some x00.
Proof. rewrite andb_true_iff, Z.ltb_lt, is_nul_at_spec. done. Qed.

Lemma uri_guard data :
  (Z.of_nat (length data) =? 0) ||
  negb (is_nul_at data (Z.of_nat (length data) - 1))
  = negb ((0 <? Z.of_nat (length data)) &&
          is_nul_at data (Z.of_nat (length data) - 1)).
Proof.
  rewrite negb_andb. f_equal.
  destruct (Z.eqb_spec (Z.of_nat (length data)) 0),
           (Z.ltb_spec 0 (Z.of_nat (length data))); simpl; lia.
Qed.

(** xmlIO-uri.c in closed form. *)
Lemma uri_target_spec w data (s : XmlIOUri.state) :
  XmlIOUri.LLVMFuzzerTestOneInput w data s
  = if (0 <? Z.of_nat (length data)) &&
       is_nul_at data (Z.of_nat (length data) - 1)
    then Done 0
           (XmlIOUri.mk_state
              (if XmlIOUri.initialized s =? 0 then 1
               else XmlIOUri.initialized s)
              (XmlIOUri.trace s ++
               (if XmlIOUri.initialized s =? 0
                then [xmlRegisterInputCallbacks XmlIOUri.callbacks] else []) ++
               xmlParserInputBufferCreateUrl data XML_CHAR_ENCODING_NONE 0 ::
               match createUrl_out w data with
               | Some out => [xmlFreeParserInputBuffer out]
               | None => []
               end))
    else Done 0 s.
Proof.
  unfold XmlIOUri.LLVMFuzzerTestOneInput. rewrite uri_guard.
  destruct ((0 <? Z.of_nat (length data)) &&
            is_nul_at data (Z.of_nat (length data) - 1));
    cbn [negb]; [|reflexivity].
  destruct s as [init t]. unfold mbind, M_bind, XmlIOUri.get_initialized.
  cbn [XmlIOUri.initialized XmlIOUri.trace].
  destruct (init =? 0); destruct (createUrl_out w data);
    cbn; rewrite <- ?app_assoc; reflexivity.
Qed.

Lemma uri_calls_spec w data (s : XmlIOUri.state) :
  XmlIOUri.calls w data s
  = if (0 <? Z.of_nat (length data)) &&
       is_nul_at data (Z.of_nat (length data) - 1)
    then (if XmlIOUri.initialized s =? 0
          then [xmlRegisterInputCallbacks XmlIOUri.callbacks] else []) ++
         xmlParserInputBufferCreateUrl data XML_CHAR_ENCODING_NONE 0 ::
         match createUrl_out w data with
         | Some out => [xmlFreeParserInputBuffer out]
         | None => []
         end
    else [].
Proof.
  unfold XmlIOUri.calls. rewrite uri_target_spec.
  destruct ((0 <? Z.of_nat (length data)) &&
            is_nul_at data (Z.of_nat (length data) - 1));
    cbn [XmlIOUri.final XmlIOUri.trace].
  - apply drop_app_length.
  - apply drop_all.
Qed.

Lemma lint_calls_spec F w data (s : Lint.state F) :
  Lint.calls F w data s = Lint.target_calls F w data s.
Proof.
  unfold Lint.calls, Lint.target_calls. rewrite target_spec.
  unfold Lint.target_result, Lint.document_events.
  destruct (negb (memUsed w =? 0)).
  { cbn. rewrite <- !app_assoc. apply drop_app_length. }
  destruct (negb (malloc_succeeds w)).
  { cbn. rewrite <- !app_assoc. apply drop_app_length. }
  destruct (Lint.docBuffer F _) as [buf|];
    [destruct (Lint.docUrl F _) as [url|];
     [destruct (Lint.dash_first url)|]|];
    cbn; rewrite <- ?app_assoc; cbn; rewrite <- ?app_assoc;
    apply drop_app_length.
Qed.

End create_url.

Section create_url_claim.

Lemma create_in_lint_rest F w data (r : Lint.reads F) URI enc flags l :
  xmlParserInputBufferCreateUrl URI enc flags
  ∈ xmlMemUsed ::
    (if negb (memUsed w =? 0) then [fprintf_stderr l]
     else if negb (malloc_succeeds w) then [malloc Lint.capacity]
     else [malloc Lint.capacity;
           xmlFuzzDataInit data (Z.of_nat (length data))] ++
          Lint.document_events F w (Z.of_nat (length data)) r) -> False.
Proof.
  unfold Lint.document_events, Lint.main_events, Lint.exit_events.
  destruct (negb (memUsed w =? 0)); [set_solver|].
  destruct (negb (malloc_succeeds w)); [set_solver|].
  destruct (Lint.docBuffer F r); [|set_solver].
  destruct (Lint.docUrl F r) as [url|]; [|set_solver].
  destruct (Lint.dash_first url); [set_solver|].
  destruct (LIBXML_CATALOG_ENABLED w); set_solver.
Qed.

Lemma free_in_lint_rest F w data (r : Lint.reads F) out l :
  xmlFreeParserInputBuffer out
  ∈ xmlMemUsed ::
    (if negb (memUsed w =? 0) then [fprintf_stderr l]
     else if negb (malloc_succeeds w) then [malloc Lint.capacity]
     else [malloc Lint.capacity;
           xmlFuzzDataInit data (Z.of_nat (length data))] ++
          Lint.document_events F w (Z.of_nat (length data)) r) -> False.
Proof.
  unfold Lint.document_events, Lint.main_events, Lint.exit_events.
  destruct (negb (memUsed w =? 0)); [set_solver|].
  destruct (negb (malloc_succeeds w)); [set_solver|].
  destruct (Lint.docBuffer F r); [|set_solver].
  destruct (Lint.docUrl F r) as [url|]; [|set_solver].
  destruct (Lint.dash_first url); [set_solver|].
  destruct (LIBXML_CATALOG_ENABLED w); set_solver.
Qed.

(** C1: the URL-input target calls
    [xmlParserInputBufferCreateUrl(data, XML_CHAR_ENCODING_NONE, 0, &out)]
    exactly when [size > 0] and [data[size - 1]] is NUL, and makes no other
    creation call; when the call leaves a buffer in [out] the next call frees
    it, and when it leaves [NULL] nothing is freed; an input that is empty or
    not NUL-terminated returns 0 at once with no call made and the static
    untouched. The copy of the call in lint.c (lines 159-163) is made under
    the same condition. *)
Theorem create_url_iff_nul_terminated (w : world) (data : list byte) :
  let size := Z.of_nat (length data) in
  let guard := 0 < size /\ data !! Z.to_nat (size - 1) = Some x00 in
  let create := xmlParserInputBufferCreateUrl data XML_CHAR_ENCODING_NONE 0 in
  (forall s : XmlIOUri.state,
     (create ∈ XmlIOUri.calls w data s <-> guard)
     /\ (forall URI enc flags,
           xmlParserInputBufferCreateUrl URI enc flags
           ∈ XmlIOUri.calls w data s ->
           URI = data /\ enc = XML_CHAR_ENCODING_NONE /\ flags = 0)
     /\ (forall out, guard -> createUrl_out w data = Some out ->
           exists pre,
             XmlIOUri.calls w data s
             = pre ++ [create; xmlFreeParserInputBuffer out])
     /\ (forall out, xmlFreeParserInputBuffer out ∈ XmlIOUri.calls w data s ->
           guard /\ createUrl_out w data = Some out)
     /\ (exists s', XmlIOUri.LLVMFuzzerTestOneInput w data s = Done 0 s')
     /\ (~ guard -> XmlIOUri.LLVMFuzzerTestOneInput w data s = Done 0 s))
  /\ (forall (F : fuzz_api) (s : Lint.state F),
        (create ∈ Lint.calls F w data s <-> guard)
        /\ (forall out, xmlFreeParserInputBuffer out ∈ Lint.calls F w data s ->
              guard /\ createUrl_out w data = Some out)).
Proof.
  intros size guard create. split.
  - intros s. rewrite uri_calls_spec, uri_target_spec.
    pose proof (guard_spec data) as Hg. fold size in Hg. fold guard in Hg.
    clearbody guard. subst create size.
    destruct ((0 <? Z.of_nat (length data)) &&
              is_nul_at data (Z.of_nat (length data) - 1)).
    + assert (guard) as HG by (apply Hg; reflexivity).
      split; [|split; [|split; [|split; [|split]]]].
      * split; [done|]. intros _.
        destruct (XmlIOUri.initialized s =? 0); set_solver.
      * intros URI enc flags.
        destruct (XmlIOUri.initialized s =? 0), (createUrl_out w data);
          set_solver.
      * intros out _ ->. eexists. reflexivity.
      * intros out.
        destruct (XmlIOUri.initialized s =? 0), (createUrl_out w data);
          set_solver.
      * eexists. reflexivity.
      * done.
    + assert (~ guard) as HG by (intros HG%Hg; discriminate).
      split; [|split; [|split; [|split; [|split]]]].
      * set_solver.
      * set_solver.
      * done.
      * set_solver.
      * eexists. reflexivity.
      * done.
  - intros F s. rewrite lint_calls_spec. unfold Lint.target_calls.
    pose proof (guard_spec data) as Hg. fold size in Hg. fold guard in Hg.
    fold size. unfold Lint.create_url_events. fold size.
    set (rest := xmlMemUsed :: _).
    assert (Hrest : forall URI enc flags,
              xmlParserInputBufferCreateUrl URI enc flags ∉ rest)
      by (intros URI enc flags H; eapply create_in_lint_rest; exact H).
    assert (Hfree : forall out, xmlFreeParserInputBuffer out ∉ rest)
      by (intros out H; eapply free_in_lint_rest; exact H).
    clearbody rest guard. subst create size. unfold Lint.register_events.
    destruct ((0 <? Z.of_nat (length data)) &&
              is_nul_at data (Z.of_nat (length data) - 1)).
    + assert (guard) as HG by (apply Hg; reflexivity).
      split; [destruct (Lint.initialized F s =? 0); set_solver|].
      intros out.
      destruct (Lint.initialized F s =? 0), (createUrl_out w data);
        set_solver.
    + assert (~ guard) as HG by (intros HG%Hg; discriminate).
      split.
      * split; [|done].
        destruct (Lint.initialized F s =? 0); set_solver.
      * intros out. destruct (Lint.initialized F s =? 0); set_solver.
Qed.

End create_url_claim.

(** ** The callbacks and their registration *)

Section registration.

Lemma lint_trace_spec F w data (s : Lint.state F) :
  Lint.trace F (Lint.final F (Lint.LLVMFuzzerTestOneInput F w data s))
  = Lint.trace F s ++ Lint.calls F w data s.
Proof.
  unfold Lint.calls.
  assert (exists t,
            Lint.trace F (Lint.final F (Lint.LLVMFuzzerTestOneInput F w data s))
            = Lint.trace F s ++ t) as [t Ht]; [|rewrite Ht, drop_app_length; done].
  rewrite target_spec. unfold Lint.target_result.
  destruct (negb (memUsed w =? 0)); [cbn; rewrite <- app_assoc; eauto|].
  destruct (negb (malloc_succeeds w)); [cbn; rewrite <- app_assoc; eauto|].
  destruct (Lint.docBuffer F _) as [buf|];
    [destruct (Lint.docUrl F _) as [url|];
     [destruct (Lint.dash_first url)|]|];
    cbn; rewrite <- ?app_assoc; eauto.
Qed.

Lemma lint_initialized_spec F w data (s : Lint.state F) :
  Lint.initialized F (Lint.final F (Lint.LLVMFuzzerTestOneInput F w data s))
  = Lint.registered (Lint.initialized F s).
Proof.
  rewrite target_spec. unfold Lint.target_result.
  destruct (negb (memUsed w =? 0)); [reflexivity|].
  destruct (negb (malloc_succeeds w)); [reflexivity|].
  destruct (Lint.docBuffer F _) as [buf|];
    [destruct (Lint.docUrl F _) as [url|];
     [destruct (Lint.dash_first url)|]|];
    reflexivity.
Qed.

Lemma lint_calls_register F w data (s : Lint.state F) :
  List.filter is_register (Lint.calls F w data s)
  = Lint.register_events (Lint.initialized F s).
Proof.
  rewrite lint_calls_spec. unfold Lint.target_calls.
  rewrite List.filter_app.
  assert (List.filter is_register (Lint.register_events (Lint.initialized F s))
          = Lint.register_events (Lint.initialized F s)) as ->
    by (unfold Lint.register_events; destruct (_ =? 0); reflexivity).
  rewrite List.filter_app.
  assert (List.filter is_register (Lint.create_url_events w data) = [])
    as ->.
  { unfold Lint.create_url_events.
    destruct (_ && _); [destruct (createUrl_out w data)|]; reflexivity. }
  rewrite app_nil_l, <- (app_nil_r (Lint.register_events _)) at 1.
  rewrite app_nil_r. rewrite <- (app_nil_r (Lint.register_events _)) at 2.
  f_equal.
  unfold Lint.document_events, Lint.main_events, Lint.exit_events.
  destruct (negb (memUsed w =? 0)); [reflexivity|].
  destruct (negb (malloc_succeeds w)); [reflexivity|].
  destruct (Lint.docBuffer F _) as [buf|];
    [destruct (Lint.docUrl F _) as [url|];
     [destruct (Lint.dash_first url)|]|];
    try reflexivity.
  destruct (LIBXML_CATALOG_ENABLED w); reflexivity.
Qed.

Lemma registered_nonzero init : (Lint.registered init =? 0) = false.
Proof.
  unfold Lint.registered. destruct (init =? 0) eqn:E; [reflexivity|exact E].
Qed.

(** Over any number of calls the CLI target adds at most one registration,
    of its own callbacks, and none once the static is set. *)
Lemma lint_run_registers F inputs : forall s : Lint.state F,
  exists k : nat,
    (k <= (if (Lint.initialized F s =? 0)%Z then 1 else 0))%nat /\
    List.filter is_register
      (Lint.trace F (Lint.final F (Lint.run F inputs s)))
    = List.filter is_register (Lint.trace F s) ++
      replicate k (xmlRegisterInputCallbacks Lint.callbacks).
Proof.
  induction inputs as [|[w data] rest IH]; intros s.
  - exists 0%nat. split; [destruct (_ =? 0); lia|].
    simpl. rewrite app_nil_r. reflexivity.
  - cbn [Lint.run]. unfold mbind, M_bind.
    pose proof (lint_trace_spec F w data s) as Ht.
    pose proof (lint_initialized_spec F w data s) as Hi.
    pose proof (lint_calls_register F w data s) as Hr.
    destruct (Lint.LLVMFuzzerTestOneInput F w data s) as [v s'|h s'];
      cbn [Lint.final] in Ht, Hi.
    + destruct (IH s') as (k & Hk & Hf).
      rewrite Hi, registered_nonzero in Hk.
      assert (k = 0%nat) as -> by lia.
      rewrite Hf, Ht, List.filter_app, Hr. simpl. rewrite app_nil_r.
      unfold Lint.register_events. destruct (Lint.initialized F s =? 0).
      * exists 1%nat. split; [lia|reflexivity].
      * exists 0%nat. split; [lia|reflexivity].
    + cbn [Lint.final]. rewrite Ht, List.filter_app, Hr.
      unfold Lint.register_events. destruct (Lint.initialized F s =? 0).
      * exists 1%nat. split; [lia|reflexivity].
      * exists 0%nat. split; [lia|reflexivity].
Qed.

Lemma uri_trace_spec w data (s : XmlIOUri.state) :
  XmlIOUri.trace (XmlIOUri.final (XmlIOUri.LLVMFuzzerTestOneInput w data s))
  = XmlIOUri.trace s ++ XmlIOUri.calls w data s.
Proof.
  rewrite uri_calls_spec, uri_target_spec.
  destruct (_ && _); cbn; [reflexivity|]. rewrite app_nil_r. reflexivity.
Qed.

Lemma uri_run_registers inputs : forall s : XmlIOUri.state,
  exists k : nat,
    (k <= (if (XmlIOUri.initialized s =? 0)%Z then 1 else 0))%nat /\
    List.filter is_register
      (XmlIOUri.trace (XmlIOUri.final (XmlIOUri.run inputs s)))
    = List.filter is_register (XmlIOUri.trace s) ++
      replicate k (xmlRegisterInputCallbacks XmlIOUri.callbacks).
Proof.
  induction inputs as [|[w data] rest IH]; intros s.
  - exists 0%nat. split; [destruct (_ =? 0); lia|].
    simpl. rewrite app_nil_r. reflexivity.
  - cbn [XmlIOUri.run]. unfold mbind, M_bind. rewrite uri_target_spec.
    destruct (_ && _).
    + match goal with |- context [XmlIOUri.run rest ?s1] =>
        destruct (IH s1) as (k & Hk & Hf) end.
      rewrite Hf. clear Hf. cbn [XmlIOUri.initialized XmlIOUri.trace] in *.
      destruct (XmlIOUri.initialized s =? 0) eqn:E.
      * assert (k = 0%nat) as -> by (simpl in Hk; lia).
        exists 1%nat. split; [lia|].
        rewrite List.filter_app. cbn [app List.filter is_register].
        destruct (createUrl_out w data); simpl; rewrite app_nil_r;
          reflexivity.
      * rewrite E in Hk. assert (k = 0%nat) as -> by lia.
        exists 0%nat. split; [lia|].
        rewrite List.filter_app. cbn [app List.filter is_register].
        destruct (createUrl_out w data); simpl; rewrite !app_nil_r;
          reflexivity.
    + apply IH.
Qed.

(** C7: in both files [myMatch] returns 1 for every URI, [myOpen] returns
    [NULL], [myRead] returns -1 and [myClose] returns 0, so the two families
    are the same functions; and whatever the inputs of a run, each target
    calls [xmlRegisterInputCallbacks] at most once, with its family. *)
Theorem callbacks_same_and_registered_once :
  (forall URI, Lint.myMatch URI = 1 /\ XmlIOUri.myMatch URI = 1)
  /\ (forall URI, Lint.myOpen URI = None /\ XmlIOUri.myOpen URI = None)
  /\ (forall ctx buf len,
        Lint.myRead ctx buf len = -1 /\ XmlIOUri.myRead ctx buf len = -1)
  /\ (forall ctx, Lint.myClose ctx = 0 /\ XmlIOUri.myClose ctx = 0)
  /\ Lint.callbacks = XmlIOUri.callbacks
  /\ (forall inputs,
        let t := XmlIOUri.trace
                   (XmlIOUri.final (XmlIOUri.run inputs XmlIOUri.start)) in
        (registrations t <= 1)%nat /\
        (forall cb, xmlRegisterInputCallbacks cb ∈ t ->
                    cb = XmlIOUri.callbacks))
  /\ (forall (F : fuzz_api) inputs (fd : fuzzData F),
        let t := Lint.trace F
                   (Lint.final F (Lint.run F inputs (Lint.start F fd))) in
        (registrations t <= 1)%nat /\
        (forall cb, xmlRegisterInputCallbacks cb ∈ t -> cb = Lint.callbacks)).
Proof.
  assert (Hin : forall (t : list event) cb0 k,
            List.filter is_register t
            = replicate k (xmlRegisterInputCallbacks cb0) ->
            forall cb, xmlRegisterInputCallbacks cb ∈ t -> cb = cb0).
  { intros t cb0 k Hf cb Hcb.
    assert (xmlRegisterInputCallbacks cb ∈ List.filter is_register t) as H.
    { apply list_elem_of_In, List.filter_In. split; [|reflexivity].
      apply list_elem_of_In. exact Hcb. }
    rewrite Hf in H. apply elem_of_replicate in H as [[= ->] _]. reflexivity. }
  repeat (split; [done|]). split.
  - intros inputs t. subst t.
    destruct (uri_run_registers inputs XmlIOUri.start) as (k & Hk & Hf).
    simpl in Hk, Hf. split.
    + unfold registrations. rewrite Hf, length_replicate. exact Hk.
    + eapply Hin. exact Hf.
  - intros F inputs fd t. subst t.
    destruct (lint_run_registers F inputs (Lint.start F fd)) as (k & Hk & Hf).
    simpl in Hk, Hf. split.
    + unfold registrations. rewrite Hf, length_replicate. exact Hk.
    + eapply Hin. exact Hf.
Qed.

End registration.

(** ** lint.c: leak check, skipped documents, return value *)

Section lint_control.
Import Lint.
Context (F : fuzz_api).

Lemma mem_used_once w data (r : reads F) :
  xmlMemUsed
  ∉ (if negb (malloc_succeeds w) then [malloc capacity]
     else [malloc capacity; xmlFuzzDataInit data (Z.of_nat (length data))] ++
          document_events F w (Z.of_nat (length data)) r).
Proof.
  unfold document_events, main_events, exit_events.
  destruct (negb (malloc_succeeds w)); [set_solver|].
  destruct (docBuffer F r); [|set_solver].
  destruct (docUrl F r) as [url|]; [|set_solver].
  destruct (dash_first url); [set_solver|].
  destruct (LIBXML_CATALOG_ENABLED w); set_solver.
Qed.

(** C2: in a call of the CLI target [xmlMemUsed()] is read once, after the
    registration and the direct call and before [malloc] and every later
    call; the target aborts exactly when the value read is not zero, and it
    then has touched neither [vars] nor the reader: the only calls after the
    check are the message on [stderr] and [abort]. *)
Theorem abort_iff_leak (w : world) (data : list byte) (s : state F) :
  let r := LLVMFuzzerTestOneInput F w data s in
  ((exists s', r = Halt Abort s') <-> memUsed w <> 0)
  /\ (exists post,
        calls F w data s
        = register_events (initialized F s) ++ create_url_events w data ++
          xmlMemUsed :: post
        /\ (xmlMemUsed ∉ register_events (initialized F s) ++
                         create_url_events w data)
        /\ (forall n, malloc n ∉ register_events (initialized F s) ++
                                create_url_events w data)
        /\ (xmlMemUsed ∉ post)
        /\ (memUsed w = 0 -> exists post', post = malloc capacity :: post')
        /\ (memUsed w <> 0 ->
            post = [fprintf_stderr
                      (String.append "Undetected leak in previous iteration"
                                     (String "010"%char EmptyString))]
            /\ vars F (final F r) = vars F s
            /\ fuzz F (final F r) = fuzz F s)).
Proof.
  intros r. subst r. rewrite lint_calls_spec, target_spec.
  unfold target_calls, target_result.
  assert (Hpre : xmlMemUsed ∉ register_events (initialized F s) ++
                             create_url_events w data).
  { unfold register_events, create_url_events.
    destruct (initialized F s =? 0), (_ && _), (createUrl_out w data);
      set_solver. }
  assert (Hpre' : forall n, malloc n ∉ register_events (initialized F s) ++
                                      create_url_events w data).
  { intros n. unfold register_events, create_url_events.
    destruct (initialized F s =? 0), (_ && _), (createUrl_out w data);
      set_solver. }
  destruct (Z.eqb_spec (memUsed w) 0) as [Hm|Hm]; cbn [negb].
  - split.
    + split; [|done]. intros [s' Hs'].
      destruct (negb (malloc_succeeds w)); [discriminate|].
      destruct (docBuffer F _); [destruct (docUrl F _) as [url|];
        [destruct (dash_first url)|]|]; discriminate.
    + eexists. split; [reflexivity|].
      split; [exact Hpre|]. split; [exact Hpre'|]. split; [|split; [|done]].
      * apply mem_used_once.
      * intros _. destruct (negb (malloc_succeeds w)); eexists; reflexivity.
  - split.
    + split; [done|]. intros _. eexists. reflexivity.
    + eexists. split; [reflexivity|].
      split; [exact Hpre|]. split; [exact Hpre'|].
      split; [set_solver|]. split; [done|]. intros _. done.
Qed.

(** The calls of lines 152-163 are calls of the three functions of
    xmlIO. *)
Lemma prologue_events_kind i w data e :
  e ∈ register_events i ++ create_url_events w data ->
  match e with
  | xmlRegisterInputCallbacks _
  | xmlParserInputBufferCreateUrl _ _ _
  | xmlFreeParserInputBuffer _ => True
  | _ => False
  end.
Proof.
  unfold register_events, create_url_events.
  destruct (i =? 0), (_ && _), (createUrl_out w data);
    rewrite ?elem_of_app, ?elem_of_cons, ?elem_of_nil; naive_solver.
Qed.



(** C6: a call of either target that returns, returns 0. The URL-input
    target always returns; the CLI target returns whenever the leak check
    passes, the array was allocated and a main entity comes with its URL. *)
Theorem return_value_zero :
  (forall w data (s : XmlIOUri.state),
     exists s', XmlIOUri.LLVMFuzzerTestOneInput w data s = Done 0 s')
  /\ (forall w data (s : XmlIOUri.state) v s',
        XmlIOUri.LLVMFuzzerTestOneInput w data s = Done v s' -> v = 0)
  /\ (forall w data (s : state F) v s',
        LLVMFuzzerTestOneInput F w data s = Done v s' -> v = 0)
  /\ (forall w data (s : state F),
        memUsed w = 0 -> malloc_succeeds w = true ->
        (docBuffer F (read_all F w data (fuzz F s)) <> None ->
         docUrl F (read_all F w data (fuzz F s)) <> None) ->
        exists s', LLVMFuzzerTestOneInput F w data s = Done 0 s').
Proof.
  split; [|split; [|split]].
  - intros w data s. rewrite uri_target_spec. destruct (_ && _); eauto.
  - intros w data s v s'. rewrite uri_target_spec.
    destruct (_ && _); intros [= <- _]; reflexivity.
  - intros w data s v s'. rewrite target_spec. unfold target_result.
    destruct (negb (memUsed w =? 0)); [discriminate|].
    destruct (negb (malloc_succeeds w)); [discriminate|].
    destruct (docBuffer F _); [destruct (docUrl F _) as [url|];
      [destruct (dash_first url)|]|];
      first [discriminate | intros [= <- _]; reflexivity].
  - intros w data s Hmem Hm Hurl. rewrite target_spec. unfold target_result.
    rewrite Hmem, Hm. cbn [Z.eqb negb].
    destruct (docBuffer F _) as [buf|]; [|eauto].
    destruct (docUrl F _) as [url|]; [|exfalso; by apply Hurl].
    destruct (dash_first url); eauto.
Qed.

End lint_control.

(** ** lint.c: the shape of the argument vector *)

Section lint_arguments.
Import Lint.
Context (F : fuzz_api).

Lemma to_int_small v : 0 <= v < 2 ^ 31 -> to_int v = v.
Proof. intros Hv. unfold to_int. rewrite Z.mod_small; lia. Qed.

Lemma to_unsigned_range v : 0 <= to_unsigned v < 2 ^ 32.
Proof. unfold to_unsigned. apply Z.mod_pos_bound. lia. Qed.

Lemma to_unsigned_small v : 0 <= v < 2 ^ 32 -> to_unsigned v = v.
Proof. intros Hv. unfold to_unsigned. apply Z.mod_small. lia. Qed.

(** The number printed after [--maxmem] is below [size * 20 + 2000]. *)
Lemma maxmem_value_bound size v :
  0 <= size -> 0 <= maxmem_value size v < size * 20 + 2000.
Proof.
  intros Hsize. unfold maxmem_value.
  pose proof (to_unsigned_range v) as Hu.
  change ((INT_MAX - 2000) / 20) with 107374082.
  destruct (Z.leb_spec size 107374082) as [Hle|Hgt].
  - assert (to_size_t (size * 20 + 2000) = size * 20 + 2000) as ->
      by (unfold to_size_t; apply Z.mod_small; lia).
    pose proof (Z.mod_pos_bound (to_unsigned v) (size * 20 + 2000)
                  ltac:(lia)) as Hm.
    assert (to_unsigned v mod (size * 20 + 2000) <= to_unsigned v)
      by (apply Z.mod_le; lia).
    rewrite (to_unsigned_small (to_unsigned v mod (size * 20 + 2000)))
      by lia.
    lia.
  - pose proof (Z.mod_pos_bound (to_unsigned v) INT_MAX
                  ltac:(unfold INT_MAX; lia)) as Hm.
    unfold INT_MAX in *. lia.
Qed.

Lemma maxmem_args_cases size v :
  0 <= size ->
  maxmem_args size v = [] \/
  exists u, 0 <= u < size * 20 + 2000 /\
            maxmem_args size v
            = [Some "--maxmem"%string; Some (snprintf_u 20 u)].
Proof.
  intros Hsize. unfold maxmem_args. destruct (0 <? to_unsigned v); [|by left].
  right. exists (maxmem_value size v).
  split; [by apply maxmem_value_bound|reflexivity].
Qed.

Lemma max_ampl_args_cases v :
  max_ampl_args v = [] \/
  exists i, 1 <= i <= 5 /\
            max_ampl_args v
            = [Some "--max-ampl"%string; Some (snprintf_d 20 i)].
Proof.
  unfold max_ampl_args.
  destruct (Z.leb_spec 1 (to_int v)), (Z.leb_spec (to_int v) 5);
    cbn [andb]; try by left.
  right. exists (to_int v). split; [lia|reflexivity].
Qed.

Lemma pretty_args_cases v :
  0 <= v < 256 ->
  pretty_args v = [] \/
  0 <= v mod 4 <= 3 /\
  pretty_args v = [Some "--pretty"%string; Some (snprintf_d 20 (v mod 4))].
Proof.
  intros Hv. unfold pretty_args. rewrite to_int_small by lia.
  destruct (v =? 0); cbn [negb]; [by left|]. right.
  rewrite Z.rem_mod_nonneg by lia.
  pose proof (Z.mod_pos_bound v 4 ltac:(lia)). split; [lia|reflexivity].
Qed.

Lemma string_args_cases option (r : cptr * Z) :
  (0 < r.2 -> r.1 <> None) ->
  string_args option r = [] \/
  exists str, string_args option r = [Some option; Some str].
Proof.
  intros Hr. unfold string_args. destruct (Z.ltb_spec 0 r.2); [|by left].
  right. destruct r as [[str|] ssize]; cbn [fst snd] in *.
  - by exists str.
  - exfalso. by apply Hr.
Qed.

(** What [fuzz_api_ok] gives for the values the target reads. *)
Lemma read_all_ok w data fd :
  fuzz_api_ok F ->
  let r := read_all F w data fd in
  0 <= r_pretty F r < 256
  /\ (0 < (r_encode F r).2 -> (r_encode F r).1 <> None)
  /\ (0 < (r_pattern F r).2 -> (r_pattern F r).1 <> None)
  /\ (0 < (r_xpath F r).2 -> (r_xpath F r).1 <> None).
Proof.
  intros [Hint Hstr]. unfold read_all.
  destruct (selected F switches 0 (uval_indeterminate w)
              (fuzzDataInit F data fd)) as [[sw uval] fd1].
  destruct (xmlFuzzReadInt F 4 fd1) as [maxmem fd2].
  destruct (xmlFuzzReadInt F 1 fd2) as [max_ampl fd3].
  pose proof (Hint 1 fd3 ltac:(lia)) as Hp.
  destruct (xmlFuzzReadInt F 1 fd3) as [pretty fd4].
  destruct (xmlFuzzReadString F fd4) as [[e esz] fd5] eqn:He.
  destruct (xmlFuzzReadString F fd5) as [[p psz] fd6] eqn:Hpa.
  destruct (xmlFuzzReadString F fd6) as [[x xsz] fd7] eqn:Hx.
  cbn [r_pretty r_encode r_pattern r_xpath fst snd] in *.
  split; [exact Hp|].
  split; [|split]; intros Hsz;
    [exact (Hstr _ _ _ _ He Hsz) | exact (Hstr _ _ _ _ Hpa Hsz)
    | exact (Hstr _ _ _ _ Hx Hsz)].
Qed.

Lemma document_args_cases (r : reads F) :
  document_args F r = [] \/
  exists url, String.get 0 url <> Some "-"%char /\
              docUrl F r = Some url /\ docBuffer F r <> None /\
              document_args F r = [Some url; None].
Proof.
  unfold document_args.
  destruct (docBuffer F r) as [buf|]; [|by left].
  destruct (docUrl F r) as [url|]; [|by left].
  unfold dash_first. case_bool_decide; [by left|].
  right. exists url. done.
Qed.

(** The array at the end of a call that got past the allocation. *)
Lemma lint_vars_spec w data (s : state F) :
  memUsed w = 0 -> malloc_succeeds w = true ->
  vars F (final F (LLVMFuzzerTestOneInput F w data s))
  = filled (arguments F (Z.of_nat (length data))
              (read_all F w data (fuzz F s)) ++
            document_args F (read_all F w data (fuzz F s))).
Proof.
  intros Hmem Hm. rewrite target_spec. unfold target_result, document_args.
  rewrite Hmem, Hm. cbn [Z.eqb negb].
  destruct (docBuffer F _) as [buf|];
    [destruct (docUrl F _) as [url|];
     [destruct (dash_first url)|]|];
    cbn [final vars pushed]; rewrite ?app_nil_r; reflexivity.
Qed.

Lemma stored_filled (s : state F) l :
  vars F s = filled l -> (length l <= capacity)%nat ->
  stored F s = Some <$> l.
Proof.
  intros Hv Hl. unfold stored. rewrite Hv. unfold filled. simpl.
  rewrite take_app_length'; [reflexivity|]. by rewrite length_fmap.
Qed.

Lemma switches_no_option_name (a : cptr) :
  a ∈ filter (fun x : cptr => x <> None) switches ->
  (a <> Some "--maxmem"%string) /\ (a <> Some "--max-ampl"%string) /\
  (a <> Some "--pretty"%string) /\ (a <> Some "--encode"%string) /\
  (a <> Some "--pattern"%string) /\ (a <> Some "--xpath"%string) /\
  (a <> Some "--html"%string) /\ (a <> Some "--stream"%string) /\
  (a <> Some "--sax"%string) /\ (a <> None).
Proof.
  intros Ha. repeat split; intros ->; revert Ha;
    apply (bool_decide_unpack _); vm_compute; exact I.
Qed.

Lemma leading_elems w data fd (a : cptr) :
  a ∈ leading F (read_all F w data fd) ->
  a ∈ [Some "xmllint"%string; Some "--nocatalogs"%string;
       Some "--html"%string; Some "--stream"%string; Some "--sax"%string]
  \/ a ∈ filter (fun x : cptr => x <> None) switches.
Proof.
  unfold leading. rewrite !elem_of_app. intros [Ha|[Ha|Ha]].
  - left. set_solver.
  - right. eapply elem_of_sublist; [exact Ha|]. apply read_all_switches.
  - left. unfold mode_args in Ha.
    destruct (land_3_cases (r_uval F (read_all F w data fd)))
      as [H|[H|[H|H]]]; rewrite H in Ha; set_solver.
Qed.

End lint_arguments.

(** ** lint.c: the options with a value *)

Section lint_options.
Import Lint.
Context (F : fuzz_api).

Lemma document_args_length (r : reads F) :
  (length (document_args F r) <= 2)%nat.
Proof.
  unfold document_args.
  destruct (docBuffer F r); [|simpl; lia].
  destruct (docUrl F r) as [url|]; [|simpl; lia].
  destruct (dash_first url); simpl; lia.
Qed.

(** The cells below [argi] at the end of a call that got past the leak
    check and the allocation. *)
Lemma lint_stored_spec w data (s : state F) :
  memUsed w = 0 -> malloc_succeeds w = true ->
  stored F (final F (LLVMFuzzerTestOneInput F w data s))
  = Some <$> (leading F (read_all F w data (fuzz F s)) ++
              option_args F (Z.of_nat (length data))
                (read_all F w data (fuzz F s)) ++
              document_args F (read_all F w data (fuzz F s))).
Proof.
  intros Hmem Hm.
  pose proof (lint_vars_spec F w data s Hmem Hm) as Hv.
  rewrite (stored_filled F _ _ Hv).
  - unfold arguments, leading. rewrite <- !app_assoc. reflexivity.
  - rewrite length_app.
    pose proof (arguments_length F (Z.of_nat (length data)) _
                  (read_all_switches F w data (fuzz F s))).
    pose proof (document_args_length (read_all F w data (fuzz F s))).
    rewrite capacity_eq. lia.
Qed.

(** C3: in a call that builds the argument vector, the strings stored are
    the leading arguments, none of which is [--maxmem], [--max-ampl] or
    [--pretty], then the three options in this order, each absent or a pair
    of the option and its value, then the string options and the document.
    The value after [--maxmem] is the numeral of a number below
    [size * 20 + 2000], the value after [--max-ampl] that of a number from 1
    to 5, and the value after [--pretty] that of the byte read taken modulo
    4, which lies from 0 to 3. *)
Theorem option_values_bounded (w : world) (data : list byte) (s : state F) :
  fuzz_api_ok F -> memUsed w = 0 -> malloc_succeeds w = true ->
  let size := Z.of_nat (length data) in
  let r := read_all F w data (fuzz F s) in
  exists lead mm ma pr en pa xp doc : list cptr,
    stored F (final F (LLVMFuzzerTestOneInput F w data s))
    = Some <$> (lead ++ mm ++ ma ++ pr ++ en ++ pa ++ xp ++ doc)
    /\ (forall a, a ∈ lead ->
          (a <> Some "--maxmem"%string) /\ (a <> Some "--max-ampl"%string) /\
          (a <> Some "--pretty"%string))
    /\ (mm = [] \/
        exists v, 0 <= v < size * 20 + 2000 /\
                  mm = [Some "--maxmem"%string; Some (snprintf_u 20 v)])
    /\ (ma = [] \/
        exists v, 1 <= v <= 5 /\
                  ma = [Some "--max-ampl"%string; Some (snprintf_d 20 v)])
    /\ (pr = [] \/
        exists b, b = r_pretty F r /\ 0 <= b < 256 /\ 0 <= b mod 4 <= 3 /\
                  pr = [Some "--pretty"%string;
                        Some (snprintf_d 20 (b mod 4))])
    /\ (en = [] \/ exists str, en = [Some "--encode"%string; Some str])
    /\ (pa = [] \/ exists str, pa = [Some "--pattern"%string; Some str])
    /\ (xp = [] \/ exists str, xp = [Some "--xpath"%string; Some str])
    /\ (doc = [] \/ exists url, doc = [Some url; None]).
Proof.
  intros Hok Hmem Hm size r.
  destruct (read_all_ok F w data (fuzz F s) Hok) as (Hp & He & Hpa & Hx).
  fold r in Hp, He, Hpa, Hx.
  exists (leading F r), (maxmem_args size (r_maxmem F r)),
    (max_ampl_args (r_max_ampl F r)), (pretty_args (r_pretty F r)),
    (string_args "--encode" (r_encode F r)),
    (string_args "--pattern" (r_pattern F r)),
    (string_args "--xpath" (r_xpath F r)), (document_args F r).
  split; [|split; [|split; [|split; [|split; [|split; [|split; [|split]]]]]]].
  - rewrite lint_stored_spec by done. unfold option_args.
    rewrite <- !app_assoc. reflexivity.
  - intros a Ha. apply leading_elems in Ha as [Ha|Ha].
    + repeat split; intros ->; revert Ha; apply (bool_decide_unpack _);
        vm_compute; exact I.
    + apply switches_no_option_name in Ha. tauto.
  - apply maxmem_args_cases. lia.
  - apply max_ampl_args_cases.
  - destruct (pretty_args_cases (r_pretty F r) Hp) as [H|[Hb H]];
      [by left|]. right. exists (r_pretty F r). done.
  - by apply string_args_cases.
  - by apply string_args_cases.
  - by apply string_args_cases.
  - destruct (document_args_cases F r) as [H|(url & _ & _ & _ & H)];
      [by left|]. right. by exists url.
Qed.

End lint_options.

(** ** The reader over bytes meets the interface *)

Section byte_reader.
Import ByteReader.

Lemma lor_bound a b m :
  0 <= m -> 0 <= a < 2 ^ m -> 0 <= b < 2 ^ m -> 0 <= Z.lor a b < 2 ^ m.
Proof.
  intros Hm Ha Hb.
  assert (0 <= Z.lor a b) as Hnn by (apply Z.lor_nonneg; lia).
  split; [exact Hnn|].
  destruct (Z.eq_dec (Z.lor a b) 0) as [->|Hne]; [apply Z.pow_pos_nonneg; lia|].
  assert (0 < m) as Hpos.
  { destruct (Z.eq_dec m 0) as [->|]; [|lia]. exfalso. apply Hne.
    assert (a = 0) as -> by (simpl in Ha; lia).
    assert (b = 0) as -> by (simpl in Hb; lia). reflexivity. }
  apply Z.log2_lt_pow2; [lia|]. rewrite Z.log2_lor by lia.
  apply Z.max_lub_lt.
  - destruct (Z.eq_dec a 0) as [->|]; [simpl|apply Z.log2_lt_pow2]; lia.
  - destruct (Z.eq_dec b 0) as [->|]; [simpl|apply Z.log2_lt_pow2]; lia.
Qed.

Lemma read_int_bound n : forall p ret k,
  0 <= k -> 0 <= ret < 2 ^ (8 * k) ->
  0 <= (read_int n p ret).1 < 2 ^ (8 * (k + Z.of_nat n)).
Proof.
  induction n as [|n IH]; intros p ret k Hk Hret.
  - cbn [read_int fst]. replace (k + Z.of_nat 0) with k by lia. exact Hret.
  - destruct p as [|c p]; cbn [read_int fst].
    + assert (2 ^ (8 * k) <= 2 ^ (8 * (k + Z.of_nat (Datatypes.S n))))
        by (apply Z.pow_le_mono_r; lia).
      lia.
    + replace (k + Z.of_nat (Datatypes.S n)) with ((k + 1) + Z.of_nat n) by lia.
      apply IH; [lia|].
      assert (0 <= Z.lor (Z.shiftl ret 8) (Z.of_N (Byte.to_N c))
              < 2 ^ (8 * (k + 1))) as Hl.
      { apply lor_bound; [lia| |].
        - rewrite Z.shiftl_mul_pow2 by lia.
          replace (8 * (k + 1)) with (8 * k + 8) by lia.
          rewrite Z.pow_add_r by lia. nia.
        - pose proof (Byte.to_N_bounded c).
          assert (2 ^ 8 <= 2 ^ (8 * (k + 1)))
            by (apply Z.pow_le_mono_r; lia).
          lia. }
      unfold to_size_t.
      pose proof (Z.mod_pos_bound
                    (Z.lor (Z.shiftl ret 8) (Z.of_N (Byte.to_N c)))
                    (2 ^ 64) ltac:(lia)).
      pose proof (Z.mod_le (Z.lor (Z.shiftl ret 8) (Z.of_N (Byte.to_N c)))
                    (2 ^ 64) ltac:(lia) ltac:(lia)).
      lia.
Qed.

Lemma byte_reader_ok : fuzz_api_ok api.
Proof.
  split.
  - intros n fd Hn. cbn [xmlFuzzReadInt api].
    pose proof (read_int_bound (Z.to_nat n) (ptr fd) 0 0 ltac:(lia)
                  ltac:(simpl; lia)) as H.
    destruct (read_int (Z.to_nat n) (ptr fd) 0) as [ret p].
    cbn [fst] in *. replace (0 + Z.of_nat (Z.to_nat n)) with n in H by lia.
    exact H.
  - intros fd sval ssize fd'. cbn [xmlFuzzReadString api].
    destruct (read_string (ptr fd) []) as [[out|] p];
      intros [= <- <- <-]; simpl; [done|lia].
Qed.

End byte_reader.

(** ** lint.c: the parsing mode *)

Section lint_mode.
Import Lint.
Context (F : fuzz_api).

Lemma snprintf_u_no_dash v : String.get 0 (snprintf_u 20 v) <> Some "-"%char.
Proof.
  unfold snprintf_u, NilZero.string_of_uint.
  destruct (N.to_uint (Z.to_N v)); simpl; discriminate.
Qed.

Lemma mode_flag_dash (a : cptr) :
  a ∈ mode_flags -> exists str, a = Some str /\ String.get 0 str = Some "-"%char.
Proof.
  unfold mode_flags. rewrite !elem_of_cons, elem_of_nil.
  intros [->|[->|[->|[]]]]; eexists; split; reflexivity.
Qed.

Lemma maxmem_args_no_mode size v (a : cptr) :
  a ∈ maxmem_args size v -> a ∉ mode_flags.
Proof.
  unfold maxmem_args. destruct (0 <? to_unsigned v); [|set_solver].
  rewrite !elem_of_cons, elem_of_nil. intros [->|[->|[]]].
  - apply (bool_decide_unpack _). vm_compute. exact I.
  - intros (str & [= <-] & Hd)%mode_flag_dash.
    by apply (snprintf_u_no_dash (maxmem_value size v)).
Qed.

Lemma max_ampl_args_no_mode v (a : cptr) :
  a ∈ max_ampl_args v -> a ∉ mode_flags.
Proof.
  unfold max_ampl_args.
  destruct (Z.leb_spec 1 (to_int v)), (Z.leb_spec (to_int v) 5);
    cbn [andb]; try set_solver.
  assert (to_int v = 1 \/ to_int v = 2 \/ to_int v = 3 \/ to_int v = 4 \/
          to_int v = 5) as Hc by lia.
  destruct Hc as [-> | [-> | [-> | [-> | ->]]]];
    rewrite !elem_of_cons, elem_of_nil; intros [->|[->|[]]];
    apply (bool_decide_unpack _); vm_compute; exact I.
Qed.

Lemma pretty_args_no_mode v (a : cptr) :
  a ∈ pretty_args v -> a ∉ mode_flags.
Proof.
  unfold pretty_args. destruct (negb (to_int v =? 0)); [|set_solver].
  pose proof (Z.rem_bound_abs (to_int v) 4 ltac:(lia)) as Hb.
  assert (Z.rem (to_int v) 4 = -3 \/ Z.rem (to_int v) 4 = -2 \/
          Z.rem (to_int v) 4 = -1 \/ Z.rem (to_int v) 4 = 0 \/
          Z.rem (to_int v) 4 = 1 \/ Z.rem (to_int v) 4 = 2 \/
          Z.rem (to_int v) 4 = 3) as Hc by lia.
  destruct Hc as [-> | [-> | [-> | [-> | [-> | [-> | ->]]]]]];
    rewrite !elem_of_cons, elem_of_nil; intros [->|[->|[]]];
    apply (bool_decide_unpack _); vm_compute; exact I.
Qed.

Lemma document_args_no_mode (r : reads F) (a : cptr) :
  a ∈ document_args F r -> a ∉ mode_flags.
Proof.
  destruct (document_args_cases F r) as [->|(url & Hd & _ & _ & ->)];
    [set_solver|].
  rewrite !elem_of_cons, elem_of_nil. intros [->|[->|[]]].
  - intros (str & [= <-] & Hs)%mode_flag_dash. by apply Hd.
  - intros (str & Hs & _)%mode_flag_dash. discriminate Hs.
Qed.

Lemma read_all_uval w data fd :
  r_uval F (read_all F w data fd)
  = (selected F switches 0 (uval_indeterminate w)
       (fuzzDataInit F data fd)).1.2.
Proof.
  unfold read_all.
  destruct (selected F switches 0 (uval_indeterminate w)
              (fuzzDataInit F data fd)) as [[sw uval] fd1].
  repeat match goal with
         | |- context [let '(_, _) := ?x in _] => destruct x
         end.
  reflexivity.
Qed.

(** C4, as the code has it: after the loop over the switches, which leaves
    [uval], the target pushes no flag when [uval & 3] is 0, [--html] when it
    is 1, [--stream] when it is 2 and [--sax] when it is 3. None of the
    three flags is among the arguments pushed before the mode, among the
    numeric options and their values, or is the URL of the document; the
    other strings of the array are the values that follow [--encode],
    [--pattern] and [--xpath], which come from the fuzz data. *)
Theorem mode_from_low_bits (w : world) (data : list byte) (s : state F) :
  memUsed w = 0 -> malloc_succeeds w = true ->
  let r := read_all F w data (fuzz F s) in
  let uval := r_uval F r in
  exists pre mode opts en pa xp doc : list cptr,
    stored F (final F (LLVMFuzzerTestOneInput F w data s))
    = Some <$> (pre ++ mode ++ opts ++ en ++ pa ++ xp ++ doc)
    /\ (forall s0 : state F,
          exists s1,
            for_switches F switches 0 (uval_indeterminate w)
              (pushed F s0 [Some "xmllint"%string; Some "--nocatalogs"%string]
                      (fuzzDataInit F data (fuzz F s)))
            = Done uval s1)
    /\ 0 <= Z.land uval 3 <= 3
    /\ mode = match Z.land uval 3 with
              | 0 => []
              | 1 => [Some "--html"%string]
              | 2 => [Some "--stream"%string]
              | 3 => [Some "--sax"%string]
              | _ => []
              end
    /\ (length mode <= 1)%nat
    /\ (forall a, a ∈ pre ++ opts ++ doc -> a ∉ mode_flags)
    /\ (en = [] \/ exists val, en = [Some "--encode"%string; val])
    /\ (pa = [] \/ exists val, pa = [Some "--pattern"%string; val])
    /\ (xp = [] \/ exists val, xp = [Some "--xpath"%string; val]).
Proof.
  intros Hmem Hm r uval.
  exists ([Some "xmllint"%string; Some "--nocatalogs"%string] ++
          r_switches F r), (mode_args uval),
    (maxmem_args (Z.of_nat (length data)) (r_maxmem F r) ++
     max_ampl_args (r_max_ampl F r) ++ pretty_args (r_pretty F r)),
    (string_args "--encode" (r_encode F r)),
    (string_args "--pattern" (r_pattern F r)),
    (string_args "--xpath" (r_xpath F r)), (document_args F r).
  split; [|split; [|split; [|split; [|split; [|split; [|split; [|split]]]]]]].
  - rewrite lint_stored_spec by done. unfold leading, option_args.
    fold r. fold uval. rewrite <- !app_assoc. reflexivity.
  - intros s0. eexists.
    rewrite for_switches_pushed by (rewrite capacity_eq; simpl; lia).
    subst uval r. rewrite read_all_uval. reflexivity.
  - destruct (land_3_cases uval) as [H|[H|[H|H]]]; rewrite H; lia.
  - unfold mode_args.
    destruct (land_3_cases uval) as [H|[H|[H|H]]]; rewrite H; reflexivity.
  - apply mode_args_length.
  - intros a. rewrite !elem_of_app. intros [[Ha|Ha]|[[Ha|[Ha|Ha]]|Ha]].
    + revert Ha. rewrite !elem_of_cons, elem_of_nil. intros [->|[->|[]]];
        apply (bool_decide_unpack _); vm_compute; exact I.
    + assert (a ∈ filter (fun x : cptr => x <> None) switches) as Hsw
        by (eapply elem_of_sublist; [exact Ha|apply read_all_switches]).
      apply switches_no_option_name in Hsw.
      unfold mode_flags. rewrite !elem_of_cons, elem_of_nil. tauto.
    + by eapply maxmem_args_no_mode.
    + by eapply max_ampl_args_no_mode.
    + by eapply pretty_args_no_mode.
    + by eapply document_args_no_mode.
  - unfold string_args. destruct (0 <? _); eauto.
  - unfold string_args. destruct (0 <? _); eauto.
  - unfold string_args. destruct (0 <? _); eauto.
Qed.

End lint_mode.

(** ** lint.c: the bounds of the argument array *)

Section lint_bounds.
Import Lint.
Context (F : fuzz_api).

Lemma option_flags_strings size v1 v2 v3 (a : cptr) :
  a ∈ maxmem_args size v1 ++ max_ampl_args v2 ++ pretty_args v3 ->
  a <> None.
Proof.
  unfold maxmem_args, max_ampl_args, pretty_args.
  destruct (0 <? to_unsigned v1), ((1 <=? to_int v2) && (to_int v2 <=? 5)),
    (negb (to_int v3 =? 0)); set_solver.
Qed.

Lemma string_args_strings option (r : cptr * Z) (a : cptr) :
  (0 < r.2 -> r.1 <> None) -> a ∈ string_args option r -> a <> None.
Proof.
  intros Hr. unfold string_args. destruct (Z.ltb_spec 0 r.2); [|set_solver].
  specialize (Hr ltac:(lia)). set_solver.
Qed.

(** With a reader that meets the interface every argument is a string. *)
Lemma arguments_strings w data fd (a : cptr) :
  fuzz_api_ok F ->
  a ∈ arguments F (Z.of_nat (length data)) (read_all F w data fd) ->
  a <> None.
Proof.
  intros Hok.
  destruct (read_all_ok F w data fd Hok) as (_ & He & Hpa & Hx).
  assert (arguments F (Z.of_nat (length data)) (read_all F w data fd)
          = leading F (read_all F w data fd) ++
            option_args F (Z.of_nat (length data)) (read_all F w data fd))
    as -> by (unfold arguments, leading; rewrite <- !app_assoc; reflexivity).
  rewrite elem_of_app. intros [Ha|Ha].
  - apply leading_elems in Ha as [Ha|Ha];
      [intros ->; revert Ha; apply (bool_decide_unpack _); vm_compute;
       exact I|].
    apply switches_no_option_name in Ha. tauto.
  - unfold option_args in Ha. rewrite !elem_of_app in Ha.
    pose proof (option_flags_strings (Z.of_nat (length data))
                  (r_maxmem F (read_all F w data fd))
                  (r_max_ampl F (read_all F w data fd))
                  (r_pretty F (read_all F w data fd)) a) as Hopt.
    rewrite !elem_of_app in Hopt.
    destruct Ha as [Ha|[Ha|[Ha|[Ha|[Ha|Ha]]]]].
    + apply Hopt. tauto.
    + apply Hopt. tauto.
    + apply Hopt. tauto.
    + exact (string_args_strings _ _ _ He Ha).
    + exact (string_args_strings _ _ _ Hpa Ha).
    + exact (string_args_strings _ _ _ Hx Ha).
Qed.

(** The one call of [xmllintMain] a call of the target can make. *)
Lemma lint_main_call w data (s : state F) argc cells :
  xmllintMain argc cells ∈ calls F w data s ->
  exists url,
    let l := arguments F (Z.of_nat (length data))
               (read_all F w data (fuzz F s)) ++ [Some url; None] in
    argc = to_int (Z.of_nat (length l) - 1) /\
    cells = (Some <$> l) ++ replicate (capacity - length l) None.
Proof.
  rewrite lint_calls_spec. unfold target_calls.
  assert (Hpre : xmllintMain argc cells
                 ∉ register_events (initialized F s) ++
                   create_url_events w data).
  { unfold register_events, create_url_events.
    destruct (initialized F s =? 0), (_ && _), (createUrl_out w data);
      set_solver. }
  rewrite app_assoc, elem_of_app. intros [H|H]; [done|]. revert H.
  unfold document_events, main_events, exit_events.
  destruct (negb (memUsed w =? 0));
    [intros H; exfalso; clear -H; set_solver|].
  destruct (negb (malloc_succeeds w));
    [intros H; exfalso; clear -H; set_solver|].
  destruct (docBuffer F _); [|intros H; exfalso; clear -H; set_solver].
  destruct (docUrl F _) as [url|]; [|intros H; exfalso; clear -H; set_solver].
  destruct (dash_first url); [intros H; exfalso; clear -H; set_solver|].
  intros H. exists url. cbv zeta.
  destruct (LIBXML_CATALOG_ENABLED w);
    repeat (apply elem_of_cons in H as [H|H]; [try discriminate H|]);
    try (by apply elem_of_nil in H);
    injection H as -> ->; done.
Qed.

(** C10, with the sizes the code has: the table has 47 entries, 42 of them
    strings, and the array [numSwitches + 5 + 6 * 2 = 64] cells. When the
    allocation succeeds no store of [pushArg] falls outside the array or
    goes through a null pointer; a call that gets past the leak check leaves
    at most [2 + 42 + 1 + 6 * 2 + 1 + 1 = 59] cells stored; the switches
    pushed are strings of the table, never one of its [NULL] entries; and the
    array handed to [xmllintMain] holds strings in its cells [0] to
    [argc - 1] and [NULL] in cell [argc]. *)
Theorem pushes_within_capacity (w : world) (data : list byte) (s : state F) :
  fuzz_api_ok F -> malloc_succeeds w = true ->
  let res := LLVMFuzzerTestOneInput F w data s in
  let r := read_all F w data (fuzz F s) in
  (numSwitches = 47 /\ capacity = numSwitches + 5 + 6 * 2 /\ capacity = 64 /\
   length (filter (fun x : cptr => x <> None) switches) = 42)%nat
  /\ (forall s', res <> Halt OutOfBounds s' /\ res <> Halt NullStore s')
  /\ (memUsed w = 0 ->
      exists l, vars F (final F res) = filled l /\
                stored F (final F res) = Some <$> l /\
                (length l <= 2 + 42 + 1 + 6 * 2 + 1 + 1)%nat /\
                (length l <= capacity)%nat)
  /\ r_switches F r `sublist_of` filter (fun x : cptr => x <> None) switches
  /\ (None ∉ r_switches F r)
  /\ (forall argc cells,
        xmllintMain argc cells ∈ calls F w data s ->
        length cells = capacity /\ 0 < argc <= 58 /\
        (forall i, (i < Z.to_nat argc)%nat ->
                   exists str, cells !! i = Some (Some (Some str))) /\
        cells !! Z.to_nat argc = Some (Some None)).
Proof.
  intros Hok Hm res r.
  pose proof (read_all_switches F w data (fuzz F s)) as Hsw. fold r in Hsw.
  pose proof (arguments_length F (Z.of_nat (length data)) r Hsw) as Hlen.
  pose proof (document_args_length F r) as Hdoc.
  split; [done|]. split; [|split; [|split; [exact Hsw|split]]].
  - intros s'. subst res. rewrite target_spec. unfold target_result.
    rewrite Hm. cbn [negb].
    destruct (negb (memUsed w =? 0)); [split; discriminate|].
    destruct (docBuffer F _); [destruct (docUrl F _) as [url|];
      [destruct (dash_first url)|]|]; split; discriminate.
  - intros Hmem.
    exists (arguments F (Z.of_nat (length data)) r ++ document_args F r).
    pose proof (lint_vars_spec F w data s Hmem Hm) as Hv.
    assert (length (arguments F (Z.of_nat (length data)) r ++
                    document_args F r) <= 59)%nat
      by (rewrite length_app; lia).
    split; [exact Hv|]. split; [|split; [lia|rewrite capacity_eq; lia]].
    apply stored_filled; [exact Hv|rewrite capacity_eq; lia].
  - intros Hnone. apply (elem_of_sublist _ _ _ Hnone) in Hsw.
    apply switches_no_option_name in Hsw. tauto.
  - intros argc cells (url & Hargc & Hcells)%lint_main_call.
    cbv zeta in Hargc, Hcells. fold r in Hargc, Hcells.
    assert (Hstr : forall a,
              a ∈ arguments F (Z.of_nat (length data)) r -> a <> None)
      by (intros a; apply arguments_strings; exact Hok).
    set (args := arguments F (Z.of_nat (length data)) r) in *.
    clearbody args.
    assert (length (args ++ [Some url; None]) = length args + 2)%nat as Hl
      by (rewrite length_app; reflexivity).
    rewrite Hl in Hargc, Hcells.
    assert (argc = Z.of_nat (length args) + 1) as ->
      by (rewrite Hargc, to_int_small; lia).
    subst cells. split; [|split; [lia|split]].
    + rewrite length_app, length_fmap, length_replicate, Hl, capacity_eq. lia.
    + intros i Hi.
      assert (i < length args + 1)%nat as Hi' by lia.
      rewrite lookup_app_l by (rewrite length_fmap, Hl; lia).
      rewrite list_lookup_fmap.
      replace (args ++ [Some url; None]) with ((args ++ [Some url]) ++ [None])
        by (rewrite <- app_assoc; reflexivity).
      rewrite (lookup_app_l (args ++ [Some url]))
        by (rewrite length_app; simpl; lia).
      destruct (decide (i < length args)%nat) as [Hlt|Hge].
      * rewrite lookup_app_l by lia.
        destruct (lookup_lt_is_Some_2 args i Hlt) as [a Ha]. rewrite Ha.
        destruct a as [str|]; [by exists str|]. exfalso.
        apply (Hstr None); [|done].
        eapply list_elem_of_lookup_2. exact Ha.
      * rewrite lookup_app_r by lia.
        replace (i - length args)%nat with 0%nat by lia. by exists url.
    + replace (Z.to_nat (Z.of_nat (length args) + 1))
        with (length args + 1)%nat by lia.
      rewrite lookup_app_l by (rewrite length_fmap, Hl; lia).
      rewrite list_lookup_fmap.
      rewrite lookup_app_r by lia.
      replace (length args + 1 - length args)%nat with 1%nat by lia.
      reflexivity.
Qed.

End lint_bounds.

(** ** The properties on concrete inputs *)

Section on_samples.
Import Lint.

Lemma option_values_bounded_witness :
  fuzz_api_ok ByteReader.api /\ memUsed Samples.quiet = 0 /\
  malloc_succeeds Samples.quiet = true /\
  let size := Z.of_nat (length Samples.html_with_sax_encoding) in
  let r := read_all ByteReader.api Samples.quiet
             Samples.html_with_sax_encoding
             (fuzz ByteReader.api Samples.fresh) in
  exists lead mm ma pr en pa xp doc : list cptr,
    stored ByteReader.api
      (final ByteReader.api
         (LLVMFuzzerTestOneInput ByteReader.api Samples.quiet
            Samples.html_with_sax_encoding Samples.fresh))
    = Some <$> (lead ++ mm ++ ma ++ pr ++ en ++ pa ++ xp ++ doc)
    /\ (forall a, a ∈ lead ->
          (a <> Some "--maxmem"%string) /\ (a <> Some "--max-ampl"%string) /\
          (a <> Some "--pretty"%string))
    /\ (mm = [] \/
        exists v, 0 <= v < size * 20 + 2000 /\
                  mm = [Some "--maxmem"%string; Some (snprintf_u 20 v)])
    /\ (ma = [] \/
        exists v, 1 <= v <= 5 /\
                  ma = [Some "--max-ampl"%string; Some (snprintf_d 20 v)])
    /\ (pr = [] \/
        exists b, b = r_pretty ByteReader.api r /\ 0 <= b < 256 /\
                  0 <= b mod 4 <= 3 /\
                  pr = [Some "--pretty"%string;
                        Some (snprintf_d 20 (b mod 4))])
    /\ (en = [] \/ exists str, en = [Some "--encode"%string; Some str])
    /\ (pa = [] \/ exists str, pa = [Some "--pattern"%string; Some str])
    /\ (xp = [] \/ exists str, xp = [Some "--xpath"%string; Some str])
    /\ (doc = [] \/ exists url, doc = [Some url; None]).
Proof.
  split; [exact byte_reader_ok|]. split; [reflexivity|].
  split; [reflexivity|].
  apply (option_values_bounded ByteReader.api Samples.quiet
           Samples.html_with_sax_encoding Samples.fresh);
    [exact byte_reader_ok|reflexivity|reflexivity].
Defined.

Lemma mode_from_low_bits_witness :
  memUsed Samples.quiet = 0 /\ malloc_succeeds Samples.quiet = true /\
  let r := read_all ByteReader.api Samples.quiet
             Samples.html_with_sax_encoding
             (fuzz ByteReader.api Samples.fresh) in
  let uval := r_uval ByteReader.api r in
  exists pre mode opts en pa xp doc : list cptr,
    stored ByteReader.api
      (final ByteReader.api
         (LLVMFuzzerTestOneInput ByteReader.api Samples.quiet
            Samples.html_with_sax_encoding Samples.fresh))
    = Some <$> (pre ++ mode ++ opts ++ en ++ pa ++ xp ++ doc)
    /\ (forall s0 : state ByteReader.api,
          exists s1,
            for_switches ByteReader.api switches 0
              (uval_indeterminate Samples.quiet)
              (pushed ByteReader.api s0
                 [Some "xmllint"%string; Some "--nocatalogs"%string]
                 (fuzzDataInit ByteReader.api Samples.html_with_sax_encoding
                    (fuzz ByteReader.api Samples.fresh)))
            = Done uval s1)
    /\ 0 <= Z.land uval 3 <= 3
    /\ mode = match Z.land uval 3 with
              | 0 => []
              | 1 => [Some "--html"%string]
              | 2 => [Some "--stream"%string]
              | 3 => [Some "--sax"%string]
              | _ => []
              end
    /\ (length mode <= 1)%nat
    /\ (forall a, a ∈ pre ++ opts ++ doc -> a ∉ mode_flags)
    /\ (en = [] \/ exists val, en = [Some "--encode"%string; val])
    /\ (pa = [] \/ exists val, pa = [Some "--pattern"%string; val])
    /\ (xp = [] \/ exists val, xp = [Some "--xpath"%string; val]).
Proof.
  split; [reflexivity|]. split; [reflexivity|].
  apply (mode_from_low_bits ByteReader.api Samples.quiet
           Samples.html_with_sax_encoding Samples.fresh);
    reflexivity.
Defined.



Lemma pushes_within_capacity_witness :
  fuzz_api_ok ByteReader.api /\ malloc_succeeds Samples.quiet = true /\
  let res := LLVMFuzzerTestOneInput ByteReader.api Samples.quiet
               Samples.plain_document Samples.fresh in
  let r := read_all ByteReader.api Samples.quiet Samples.plain_document
             (fuzz ByteReader.api Samples.fresh) in
  (numSwitches = 47 /\ capacity = numSwitches + 5 + 6 * 2 /\ capacity = 64 /\
   length (filter (fun x : cptr => x <> None) switches) = 42)%nat
  /\ (forall s', res <> Halt OutOfBounds s' /\ res <> Halt NullStore s')
  /\ (memUsed Samples.quiet = 0 ->
      exists l, vars ByteReader.api (final ByteReader.api res) = filled l /\
                stored ByteReader.api (final ByteReader.api res)
                = Some <$> l /\
                (length l <= 2 + 42 + 1 + 6 * 2 + 1 + 1)%nat /\
                (length l <= capacity)%nat)
  /\ r_switches ByteReader.api r
     `sublist_of` filter (fun x : cptr => x <> None) switches
  /\ (None ∉ r_switches ByteReader.api r)
  /\ (forall argc cells,
        xmllintMain argc cells
        ∈ calls ByteReader.api Samples.quiet Samples.plain_document
            Samples.fresh ->
        length cells = capacity /\ 0 < argc <= 58 /\
        (forall i, (i < Z.to_nat argc)%nat ->
                   exists str, cells !! i = Some (Some (Some str))) /\
        cells !! Z.to_nat argc = Some (Some None)).
Proof.
  split; [exact byte_reader_ok|]. split; [reflexivity|].
  apply (pushes_within_capacity ByteReader.api Samples.quiet
           Samples.plain_document Samples.fresh);
    [exact byte_reader_ok|reflexivity].
Defined.

(** For [html_with_sax_encoding] the array handed to [xmllintMain] holds
    [--html], pushed for the mode, in cell 30 and [--sax], the value of
    [--encode], in cell 38: two of the three flags occur in it. *)
Lemma two_mode_flags_in_argv :
  xmllintMain 42 Samples.html_with_sax_cells
  ∈ calls ByteReader.api Samples.quiet Samples.html_with_sax_encoding
      Samples.fresh
  /\ Samples.html_with_sax_cells !! 30%nat = Some (Some (Some "--html"%string))
  /\ Samples.html_with_sax_cells !! 37%nat
     = Some (Some (Some "--encode"%string))
  /\ Samples.html_with_sax_cells !! 38%nat = Some (Some (Some "--sax"%string))
  /\ mode_flag_count Samples.html_with_sax_cells = 2%nat
  /\ ~ (mode_flag_count Samples.html_with_sax_cells <= 1)%nat.
Proof.
  split.
  { apply list_elem_of_In. vm_compute. do 6 right. left. reflexivity. }
  split; [reflexivity|]. split; [reflexivity|]. split; [reflexivity|].
  split; [vm_compute; reflexivity|]. vm_compute. lia.
Qed.

(** The array has 64 cells, not 63, and for [every_switch] the target pushes
    42 strings of the table, not at most 41. *)
Lemma capacity_64_and_42_switches :
  (numSwitches + 5 + 6 * 2)%nat <> 63%nat
  /\ (numSwitches + 5 + 6 * 2 = 64)%nat
  /\ stored ByteReader.api
       (final ByteReader.api
          (LLVMFuzzerTestOneInput ByteReader.api Samples.quiet
             Samples.every_switch Samples.fresh))
     = Some <$> ([Some "xmllint"%string; Some "--nocatalogs"%string] ++
                 filter (fun x : cptr => x <> None) switches ++
                 [Some "--sax"%string])
  /\ length (filter (fun x : cptr => x <> None) switches) = 42%nat
  /\ ~ (length (filter (fun x : cptr => x <> None) switches) <= 41)%nat.
Proof.
  split; [vm_compute; lia|]. split; [reflexivity|].
  split; [vm_compute; reflexivity|]. split; [reflexivity|].
  vm_compute. lia.
Qed.

End on_samples.

(** ** lint.c: a single push, and the indeterminate [uval] *)

Section lint_store.
Import Lint.
Context (F : fuzz_api).

Lemma selected_switches_indeterminate u u' (fd : fuzzData F) :
  selected F switches 0 u fd = selected F switches 0 u' fd.
Proof. unfold switches. cbn [selected]. reflexivity. Qed.

Lemma read_all_indeterminate w u (data : list byte) (fd : fuzzData F) :
  read_all F
    {| createUrl_out := createUrl_out w; memUsed := memUsed w;
       malloc_succeeds := malloc_succeeds w; uval_indeterminate := u;
       LIBXML_CATALOG_ENABLED := LIBXML_CATALOG_ENABLED w |} data fd
  = read_all F w data fd.
Proof.
  unfold read_all. cbn [uval_indeterminate].
  rewrite (selected_switches_indeterminate u (uval_indeterminate w)).
  reflexivity.
Qed.

(** X4: the value the local [uval] has before its first assignment is never
    used: whatever it is, a call of the target has the same result. *)
Theorem uninitialised_uval_unused (w : world) (data : list byte)
    (s : state F) (u : Z) :
  LLVMFuzzerTestOneInput F
    {| createUrl_out := createUrl_out w; memUsed := memUsed w;
       malloc_succeeds := malloc_succeeds w; uval_indeterminate := u;
       LIBXML_CATALOG_ENABLED := LIBXML_CATALOG_ENABLED w |} data s
  = LLVMFuzzerTestOneInput F w data s.
Proof.
  rewrite !target_spec. unfold target_result, create_url_events, main_events.
  cbn [createUrl_out memUsed malloc_succeeds LIBXML_CATALOG_ENABLED].
  rewrite read_all_indeterminate. reflexivity.
Qed.

End lint_store.

(** ** lint.c: the switches chunk, bit by bit *)

Section lint_bits.
Import Lint Observed.
Context (F : fuzz_api).

Lemma land_1_testbit u : negb (Z.land u 1 =? 0) = Z.testbit u 0.
Proof.
  assert (Z.land u 1 = u mod 2) as ->
    by (change 1 with (Z.ones 1); rewrite Z.land_ones by lia; reflexivity).
  rewrite <- Z.bit0_mod. destruct (Z.testbit u 0); reflexivity.
Qed.

Lemma picked_shift sw : forall u k,
  0 <= k -> picked (Z.shiftr u 1) k sw = picked u (k + 1) sw.
Proof.
  induction sw as [|x sw IH]; intros u k Hk; [reflexivity|].
  cbn [picked]. rewrite Z.shiftr_spec by lia. rewrite IH by lia. reflexivity.
Qed.

(** A stretch of the loop in which no index is a multiple of 32. *)
Lemma selected_no_read sw : forall i u (fd : fuzzData F),
  (forall j, i <= j < i + Z.of_nat (length sw) -> j mod 32 <> 0) ->
  selected F sw i u fd
  = (picked u 0 sw, Z.shiftr u (Z.of_nat (length sw)), fd).
Proof.
  induction sw as [|x sw IH]; intros i u fd Hi.
  - cbn. rewrite Z.shiftr_0_r. reflexivity.
  - cbn [selected].
    assert ((i mod 32 =? 0) = false) as ->
      by (apply Z.eqb_neq, Hi; cbn [length]; lia).
    rewrite IH by (intros j Hj; apply Hi; cbn [length]; lia).
    rewrite land_1_testbit, picked_shift by lia.
    rewrite Z.shiftr_shiftr by lia. cbn [picked length].
    do 2 f_equal. f_equal. lia.
Qed.

(** A stretch that starts at a multiple of 32 and is not longer than a
    word: one read, then the bits of the word read. *)
Lemma selected_word x sw i u (fd : fuzzData F) :
  i mod 32 = 0 -> (length sw < 32)%nat ->
  selected F (x :: sw) i u fd
  = (picked (to_unsigned (xmlFuzzReadInt F 4 fd).1) 0 (x :: sw),
     Z.shiftr (to_unsigned (xmlFuzzReadInt F 4 fd).1)
              (Z.of_nat (length (x :: sw))),
     (xmlFuzzReadInt F 4 fd).2).
Proof.
  intros Hi Hlen. cbn [selected]. rewrite Hi. cbn [Z.eqb].
  rewrite selected_no_read.
  - rewrite land_1_testbit, picked_shift by lia.
    rewrite Z.shiftr_shiftr by lia. cbn [picked length].
    do 2 f_equal. f_equal. lia.
  - intros j Hj.
    assert (j mod 32 = j - i) as ->; [|lia].
    symmetry. apply Z.mod_unique_pos with (q := i / 32); [lia|].
    pose proof (Z.div_mod i 32 ltac:(lia)). lia.
Qed.

Lemma selected_app a : forall b i u (fd : fuzzData F),
  selected F (a ++ b) i u fd
  = let '(l1, u1, fd1) := selected F a i u fd in
    let '(l2, u2, fd2) :=
      selected F b (i + Z.of_nat (length a)) u1 fd1 in
    (l1 ++ l2, u2, fd2).
Proof.
  induction a as [|x a IH]; intros b i u fd.
  - cbn. rewrite Z.add_0_r. destruct (selected F b i u fd) as [[l2 u2] fd2].
    reflexivity.
  - cbn [app selected length].
    destruct (i mod 32 =? 0);
      rewrite IH;
      match goal with
      | |- context [selected F a ?j ?v ?d] =>
          destruct (selected F a j v d) as [[l1 u1] fd1]
      end;
      replace (i + Z.of_nat (Datatypes.S (length a)))
        with (i + 1 + Z.of_nat (length a)) by lia;
      match goal with
      | |- context [selected F b ?j ?v ?d] =>
          destruct (selected F b j v d) as [[l2 u2] fd2]
      end;
      rewrite <- app_assoc; reflexivity.
Qed.

(** The loop over the table reads two words; it pushes the strings picked
    by the first word among the entries 0 to 31 and by the second among the
    entries 32 to 46, and leaves the second word shifted by 15. *)
Lemma selected_switches_spec u (fd : fuzzData F) :
  let v1 := xmlFuzzReadInt F 4 fd in
  let v2 := xmlFuzzReadInt F 4 v1.2 in
  selected F switches 0 u fd
  = (picked (to_unsigned v1.1) 0 (take 32 switches) ++
     picked (to_unsigned v2.1) 0 (drop 32 switches),
     Z.shiftr (to_unsigned v2.1) 15, v2.2).
Proof.
  intros v1 v2.
  rewrite <- (take_drop 32 switches) at 1. rewrite selected_app.
  change (take 32 switches) with (Some "--auto"%string :: take 31 (tail switches)).
  rewrite selected_word by (done || (vm_compute; lia)).
  fold v1.
  change (drop 32 switches)
    with (Some "--pedantic"%string :: drop 33 switches).
  rewrite selected_word by (done || (vm_compute; lia)).
  fold v2. reflexivity.
Qed.

Lemma elem_of_picked sw : forall u k (a : cptr),
  a ∈ picked u k sw <->
  exists j : nat, sw !! j = Some a /\ a <> None /\
                  Z.testbit u (k + Z.of_nat j) = true.
Proof.
  induction sw as [|x sw IH]; intros u k a.
  - cbn. rewrite elem_of_nil. split; [done|]. intros (j & Hj & _). done.
  - cbn [picked]. rewrite elem_of_app, IH. split.
    + intros [Hx|(j & Hj & Ha & Hb)].
      * destruct (Z.testbit u k) eqn:Hk; [|by apply elem_of_nil in Hx].
        case_bool_decide as Hn; [|by apply elem_of_nil in Hx].
        apply list_elem_of_singleton in Hx as ->.
        exists 0%nat. rewrite Z.add_0_r. done.
      * exists (Datatypes.S j). split; [exact Hj|]. split; [exact Ha|].
        rewrite <- Hb. f_equal. lia.
    + intros ([|j] & Hj & Ha & Hb).
      * left. injection Hj as ->. rewrite Z.add_0_r in Hb. rewrite Hb.
        rewrite bool_decide_eq_true_2 by done. apply list_elem_of_singleton.
        reflexivity.
      * right. exists j. split; [exact Hj|]. split; [exact Ha|].
        rewrite <- Hb. f_equal. lia.
Qed.

(** No string occurs twice in the table. *)
Lemma switches_lookup_inj (i j : nat) str :
  switches !! i = Some (Some str) -> switches !! j = Some (Some str) -> i = j.
Proof.
  intros Hi Hj.
  assert (Forall (fun i : nat =>
            Forall (fun j : nat =>
              switches !! i = switches !! j ->
              switches !! i <> Some None -> i = j) (seq 0 47)) (seq 0 47))
    as Hall by (apply (bool_decide_unpack _); vm_compute; exact I).
  pose proof (lookup_lt_Some _ _ _ Hi) as Hli.
  pose proof (lookup_lt_Some _ _ _ Hj) as Hlj.
  change (length switches) with 47%nat in Hli, Hlj.
  rewrite Forall_forall in Hall.
  specialize (Hall i ltac:(apply elem_of_seq; lia)).
  rewrite Forall_forall in Hall.
  apply (Hall j ltac:(apply elem_of_seq; lia)).
  - by rewrite Hi, Hj.
  - by rewrite Hi.
Qed.

(** X2: lines 178-184 push the switch of index [i] exactly when it is a
    string and the bit [i mod 32] of the word read for its half of the table
    is set: the first word read stands for the entries 0 to 31, the second
    for the entries 32 to 46. The strings are pushed in the order of the
    table. *)
Theorem switch_pushed_iff_bit_set (u : Z) (s0 : state F)
    (fd : fuzzData F) :
  let v1 := xmlFuzzReadInt F 4 fd in
  let v2 := xmlFuzzReadInt F 4 v1.2 in
  let word1 := to_unsigned v1.1 in
  let word2 := to_unsigned v2.1 in
  exists (sel : list cptr) uval' fd',
    for_switches F switches 0 u
      (pushed F s0 [Some "xmllint"%string; Some "--nocatalogs"%string] fd)
    = Done uval'
        (pushed F s0
           ([Some "xmllint"%string; Some "--nocatalogs"%string] ++ sel) fd')
    /\ sel `sublist_of` filter (fun x : cptr => x <> None) switches
    /\ (forall (i : nat) str,
          switches !! i = Some (Some str) ->
          (Some str ∈ sel <->
           Z.testbit (if decide (i < 32)%nat then word1 else word2)
                     (Z.of_nat (i mod 32)) = true)).
Proof.
  intros v1 v2 word1 word2.
  eexists _, _, _. split; [|split].
  - apply for_switches_pushed. rewrite capacity_eq. simpl. lia.
  - apply selected_sublist.
  - intros i str Hi. rewrite selected_switches_spec. cbn [fst snd].
    fold v1 v2 word1 word2.
    pose proof (lookup_lt_Some _ _ _ Hi) as Hlt.
    change (length switches) with 47%nat in Hlt.
    rewrite elem_of_app, !elem_of_picked. split.
    + intros [(j & Hj & _ & Hb)|(j & Hj & _ & Hb)].
      * apply lookup_take_Some in Hj as [Hj Hj32].
        assert (i = j) as <- by (eapply switches_lookup_inj; eauto).
        destruct (decide (i < 32)%nat); [|lia].
        rewrite Nat.mod_small by lia. exact Hb.
      * rewrite lookup_drop in Hj.
        assert (i = 32 + j)%nat as -> by (eapply switches_lookup_inj; eauto).
        destruct (decide (32 + j < 32)%nat); [lia|].
        replace ((32 + j) mod 32)%nat with j; [exact Hb|].
        apply Nat.mod_unique with (q := 1%nat); lia.
    + destruct (decide (i < 32)%nat) as [Hi32|Hi32]; intros Hb.
      * left. exists i. rewrite Nat.mod_small in Hb by lia.
        split; [|done]. apply lookup_take_Some. done.
      * right. exists (i - 32)%nat.
        assert (i mod 32 = i - 32)%nat as Hm
          by (symmetry; apply Nat.mod_unique with (q := 1%nat); lia).
        rewrite Hm in Hb. split; [|done].
        rewrite lookup_drop. rewrite <- Hi. f_equal. lia.
Qed.

(** X3: the loop reads exactly two words of four bytes, whatever they hold,
    and leaves the second word shifted right by 15 in [uval]; the parsing
    mode is therefore chosen by the bits 15 and 16 of the second word. *)
Theorem mode_is_bits_15_16 (u : Z) (s0 : state F) (fd : fuzzData F) :
  let v1 := xmlFuzzReadInt F 4 fd in
  let v2 := xmlFuzzReadInt F 4 v1.2 in
  let word2 := to_unsigned v2.1 in
  exists sel : list cptr,
    for_switches F switches 0 u
      (pushed F s0 [Some "xmllint"%string; Some "--nocatalogs"%string] fd)
    = Done (Z.shiftr word2 15)
        (pushed F s0
           ([Some "xmllint"%string; Some "--nocatalogs"%string] ++ sel) v2.2)
    /\ Z.land (Z.shiftr word2 15) 3
       = Z.b2z (Z.testbit word2 15) + 2 * Z.b2z (Z.testbit word2 16)
    /\ mode_args (Z.shiftr word2 15)
       = match Z.testbit word2 16, Z.testbit word2 15 with
         | false, false => []
         | false, true => [Some "--html"%string]
         | true, false => [Some "--stream"%string]
         | true, true => [Some "--sax"%string]
         end.
Proof.
  intros v1 v2 word2.
  assert (Hland : Z.land (Z.shiftr word2 15) 3
                  = Z.b2z (Z.testbit word2 15) +
                    2 * Z.b2z (Z.testbit word2 16)).
  { assert (Z.land (Z.shiftr word2 15) 3 = Z.shiftr word2 15 mod 4) as ->
      by (change 3 with (Z.ones 2); rewrite Z.land_ones by lia; reflexivity).
    replace (Z.testbit word2 15) with (Z.testbit (Z.shiftr word2 15) 0)
      by (rewrite Z.shiftr_spec by lia; reflexivity).
    replace (Z.testbit word2 16) with (Z.testbit (Z.shiftr word2 15) 1)
      by (rewrite Z.shiftr_spec by lia; reflexivity).
    pose proof (Z.testbit_spec' (Z.shiftr word2 15) 0 ltac:(lia)) as H0.
    pose proof (Z.testbit_spec' (Z.shiftr word2 15) 1 ltac:(lia)) as H1.
    change (2 ^ 0) with 1 in H0. change (2 ^ 1) with 2 in H1.
    rewrite Z.div_1_r in H0. rewrite H0, H1.
    generalize (Z.shiftr word2 15). intros a.
    pose proof (Z.div_mod a 2 ltac:(lia)).
    pose proof (Z.div_mod (a / 2) 2 ltac:(lia)).
    pose proof (Z.div_mod a 4 ltac:(lia)).
    pose proof (Z.div_div a 2 2 ltac:(lia) ltac:(lia)) as Hdd.
    change (2 * 2) with 4 in Hdd.
    pose proof (Z.mod_pos_bound a 4 ltac:(lia)).
    pose proof (Z.mod_pos_bound a 2 ltac:(lia)).
    pose proof (Z.mod_pos_bound (a / 2) 2 ltac:(lia)).
    rewrite Hdd in *. 
    generalize dependent (a mod 4). generalize dependent (a mod 2).
    generalize dependent (a / 2 mod 2). generalize dependent (a / 4).
    generalize dependent (a / 2). intros. lia. }
  exists (selected F switches 0 u fd).1.1.
  split; [|split; [exact Hland|]].
  - rewrite for_switches_pushed by (rewrite capacity_eq; simpl; lia).
    rewrite selected_switches_spec. reflexivity.
  - unfold mode_args. rewrite Hland.
    destruct (Z.testbit word2 15), (Z.testbit word2 16); reflexivity.
Qed.

End lint_bits.

(** ** lint.c: the numerals in the three buffers *)

Section numerals.
Import Lint.

Lemma of_uint_acc_lower d : forall acc,
  Z.pos acc * 10 ^ Z.of_nat (Decimal.nb_digits d)
  <= Z.pos (Pos.of_uint_acc d acc).
Proof.
  induction d as [|d IH|d IH|d IH|d IH|d IH|d IH|d IH|d IH|d IH|d IH];
    intros acc; cbn [Decimal.nb_digits Pos.of_uint_acc];
    [rewrite Z.mul_1_r; lia|..];
    rewrite Nat2Z.inj_succ, Z.pow_succ_r by lia;
    (etransitivity; [|apply IH]);
    pose proof (Z.pow_pos_nonneg 10 (Z.of_nat (Decimal.nb_digits d))
                  ltac:(lia) ltac:(lia));
    nia.
Qed.

Lemma nzhead_no_zero d :
  match Decimal.nzhead d with
  | Decimal.D0 _ => False
  | _ => True
  end.
Proof. induction d; cbn [Decimal.nzhead]; done. Qed.

(** A numeral without leading zero is at least the power of ten it has
    digits for. *)
Lemma to_uint_digits (n : N) :
  (Z.of_N n < 10 ^ 10) ->
  (Decimal.nb_digits (N.to_uint n) <= 10)%nat.
Proof.
  intros Hn.
  pose proof (DecimalN.Unsigned.of_to n) as Hof.
  pose proof (DecimalN.Unsigned.to_of (N.to_uint n)) as Hto.
  rewrite Hof in Hto. unfold Decimal.unorm in Hto.
  pose proof (nzhead_no_zero (N.to_uint n)) as Hz.
  destruct (Decimal.nzhead (N.to_uint n)) as [|d|d|d|d|d|d|d|d|d|d] eqn:Hh;
    [rewrite Hto; simpl; lia|done|..];
    rewrite Hto in Hof |- *; cbn [Decimal.nb_digits];
    unfold N.of_uint in Hof; cbn [Pos.of_uint] in Hof;
    match type of Hof with
    | N.pos (Pos.of_uint_acc d ?acc) = n =>
        pose proof (of_uint_acc_lower d acc) as Hl
    end;
    rewrite <- Hof in Hn; cbn [Z.of_N] in Hn;
    assert (10 ^ Z.of_nat (Decimal.nb_digits d) < 10 ^ 10) as Hp by nia;
    apply Z.pow_lt_mono_r_iff in Hp; lia.
Qed.

Lemma string_of_uint_length d :
  String.length (NilEmpty.string_of_uint d) = Decimal.nb_digits d.
Proof. induction d; cbn; congruence. Qed.

Lemma substring_all s : forall n,
  (String.length s <= n)%nat -> String.substring 0 n s = s.
Proof.
  induction s as [|c s IH]; intros [|n] Hn; cbn in *; try reflexivity;
    [lia|]. rewrite IH by lia. reflexivity.
Qed.

(** [snprintf] with [%u] into a buffer of 20 bytes prints a value of 32
    bits in full. *)
Lemma snprintf_u_full v :
  0 <= v < 2 ^ 32 ->
  snprintf_u 20 v = NilZero.string_of_uint (N.to_uint (Z.to_N v)) /\
  (String.length (snprintf_u 20 v) <= 10)%nat /\
  NilZero.uint_of_string (snprintf_u 20 v) = Some (N.to_uint (Z.to_N v)).
Proof.
  intros Hv. unfold snprintf_u.
  pose proof (to_uint_digits (Z.to_N v) ltac:(lia)) as Hd.
  assert (N.to_uint (Z.to_N v) <> Decimal.Nil) as Hnil.
  { intros H. pose proof (DecimalN.Unsigned.to_of (N.to_uint (Z.to_N v))) as Ht.
    rewrite DecimalN.Unsigned.of_to, H in Ht. discriminate Ht. }
  assert (String.length (NilZero.string_of_uint (N.to_uint (Z.to_N v)))
          <= 10)%nat as Hlen.
  { unfold NilZero.string_of_uint.
    destruct (N.to_uint (Z.to_N v)) eqn:E; [done|..];
      rewrite string_of_uint_length; exact Hd. }
  rewrite substring_all by (simpl; lia).
  split; [reflexivity|]. split; [exact Hlen|].
  by apply NilZero.usu.
Qed.

(** X5: the buffer of 20 bytes is large enough for the value printed after
    [--maxmem]: the string is the whole decimal numeral of the value, it has
    at most ten digits, and read back as a number it is the value. *)
Theorem maxmem_numeral_complete (size v : Z) :
  let u := maxmem_value size v in
  0 <= u < 2 ^ 32
  /\ snprintf_u 20 u = NilZero.string_of_uint (N.to_uint (Z.to_N u))
  /\ (String.length (snprintf_u 20 u) <= 10)%nat
  /\ option_map (fun d => Z.of_N (N.of_uint d))
       (NilZero.uint_of_string (snprintf_u 20 u)) = Some u.
Proof.
  intros u.
  assert (0 <= u < 2 ^ 32) as Hu.
  { subst u. unfold maxmem_value. destruct (size <=? _).
    - unfold to_unsigned at 1. apply Z.mod_pos_bound. lia.
    - pose proof (Z.mod_pos_bound (to_unsigned v) INT_MAX
                    ltac:(unfold INT_MAX; lia)).
      unfold INT_MAX in *. lia. }
  destruct (snprintf_u_full u Hu) as (Hfull & Hlen & Hback).
  split; [exact Hu|]. split; [exact Hfull|]. split; [exact Hlen|].
  rewrite Hback. cbn [option_map].
  rewrite DecimalN.Unsigned.of_to. f_equal. lia.
Qed.

(** X6: the string after [--max-ampl] is one of the digits 1 to 5, and the
    string after [--pretty] one of the digits 0 to 3 when the value read is
    a byte; the options are left out when the byte is not from 1 to 5, and
    when it is 0. *)
Theorem small_numerals (v : Z) :
  (max_ampl_args v = [] /\ ~ 1 <= to_int v <= 5 \/
   exists c, c ∈ ["1"; "2"; "3"; "4"; "5"]%string /\ 1 <= to_int v <= 5 /\
             max_ampl_args v = [Some "--max-ampl"%string; Some c])
  /\ (0 <= v < 256 ->
      pretty_args v = [] /\ v = 0 \/
      exists c, c ∈ ["0"; "1"; "2"; "3"]%string /\ v <> 0 /\
                pretty_args v = [Some "--pretty"%string; Some c]).
Proof.
  split.
  - unfold max_ampl_args.
    destruct (Z.leb_spec 1 (to_int v)), (Z.leb_spec (to_int v) 5);
      cbn [andb]; try (left; split; [reflexivity|lia]).
    right.
    assert (to_int v = 1 \/ to_int v = 2 \/ to_int v = 3 \/ to_int v = 4 \/
            to_int v = 5) as Hc by lia.
    destruct Hc as [-> | [-> | [-> | [-> | ->]]]];
      eexists; (split; [|split; [lia|reflexivity]]); vm_compute;
      set_solver.
  - intros Hv. unfold pretty_args. rewrite to_int_small by lia.
    destruct (Z.eqb_spec v 0) as [->|Hne]; cbn [negb];
      [left; split; reflexivity|]. right.
    rewrite Z.rem_mod_nonneg by lia.
    pose proof (Z.mod_pos_bound v 4 ltac:(lia)) as Hb.
    assert (v mod 4 = 0 \/ v mod 4 = 1 \/ v mod 4 = 2 \/ v mod 4 = 3)
      as Hc by lia.
    destruct Hc as [-> | [-> | [-> | ->]]];
      eexists; (split; [|split; [exact Hne|reflexivity]]); vm_compute;
      set_solver.
Qed.

End numerals.

(** ** The two targets side by side *)

Section targets_compared.
Import Observed.

(** X7: on an input that ends in NUL the CLI target begins with exactly the
    calls the URL-input target makes for it from the same value of the
    static flag, and goes on with the leak check; on any other input the
    URL-input target makes no call at all, while the CLI target still
    registers its callbacks when the flag is 0, and goes on with the leak
    check. *)
Theorem cli_target_begins_as_url_target (F : fuzz_api) (w : world)
    (data : list byte) (s : Lint.state F) (su : XmlIOUri.state) :
  Lint.initialized F s = XmlIOUri.initialized su ->
  exists rest,
    Lint.calls F w data s
    = (if accepted (w, data) then XmlIOUri.calls w data su
       else Lint.register_events (Lint.initialized F s)) ++
      xmlMemUsed :: rest
    /\ (accepted (w, data) = false -> XmlIOUri.calls w data su = []).
Proof.
  intros Hinit. rewrite lint_calls_spec, uri_calls_spec.
  unfold Lint.target_calls, Lint.create_url_events, accepted. cbn [snd].
  rewrite <- Hinit. unfold Lint.register_events.
  eexists. split; [|by intros ->].
  destruct (_ && _).
  - rewrite app_assoc. reflexivity.
  - cbn [app]. reflexivity.
Qed.

Lemma uri_run_registers_exact inputs : forall s : XmlIOUri.state,
  List.filter is_register
    (XmlIOUri.trace (XmlIOUri.final (XmlIOUri.run inputs s)))
  = List.filter is_register (XmlIOUri.trace s) ++
    (if (XmlIOUri.initialized s =? 0) && existsb accepted inputs
     then [xmlRegisterInputCallbacks XmlIOUri.callbacks] else []).
Proof.
  induction inputs as [|[w data] rest IH]; intros s.
  - cbn. rewrite andb_false_r, app_nil_r. reflexivity.
  - cbn [XmlIOUri.run existsb]. unfold mbind, M_bind.
    rewrite uri_target_spec. unfold accepted at 1. cbn [snd].
    destruct (_ && _); cbn [orb].
    + rewrite IH. cbn [XmlIOUri.initialized XmlIOUri.trace].
      destruct (XmlIOUri.initialized s =? 0) eqn:E.
      * cbn [andb Z.eqb]. rewrite !List.filter_app. cbn.
        destruct (createUrl_out w data); cbn; rewrite !app_nil_r;
          reflexivity.
      * rewrite E. cbn [andb]. rewrite !List.filter_app. cbn.
        destruct (createUrl_out w data); cbn; rewrite !app_nil_r;
          reflexivity.
    + apply IH.
Qed.

(** X8: over a run, the URL-input target registers its callbacks once if
    some input of the run ends in NUL, at the first such input, and never
    otherwise. *)
Theorem url_target_registers_on_first_accepted
    (inputs : list (world * list byte)) :
  registrations
    (XmlIOUri.trace (XmlIOUri.final (XmlIOUri.run inputs XmlIOUri.start)))
  = (if existsb accepted inputs then 1 else 0)%nat
  /\ (forall before input after,
        inputs = before ++ input :: after ->
        existsb accepted before = false ->
        XmlIOUri.run before XmlIOUri.start = Done tt XmlIOUri.start
        /\ (accepted input = true ->
            exists rest,
              XmlIOUri.calls input.1 input.2 XmlIOUri.start
              = xmlRegisterInputCallbacks XmlIOUri.callbacks :: rest)).
Proof.
  split.
  - unfold registrations. rewrite uri_run_registers_exact. cbn.
    destruct (existsb accepted inputs); reflexivity.
  - intros before input after _ Hbefore. split.
    + clear -Hbefore. induction before as [|[w data] before IH];
        [reflexivity|].
      cbn [existsb] in Hbefore. apply orb_false_iff in Hbefore as [Ha Hb].
      cbn [XmlIOUri.run]. unfold mbind, M_bind. rewrite uri_target_spec.
      unfold accepted in Ha. cbn [snd] in Ha. rewrite Ha. by apply IH.
    + destruct input as [w data]. unfold accepted. cbn [fst snd].
      intros Ha. rewrite uri_calls_spec, Ha. eexists. reflexivity.
Qed.

Lemma lint_run_registers_exact F inputs : forall s : Lint.state F,
  List.filter is_register
    (Lint.trace F (Lint.final F (Lint.run F inputs s)))
  = List.filter is_register (Lint.trace F s) ++
    (if (Lint.initialized F s =? 0) && negb (bool_decide (inputs = []))
     then [xmlRegisterInputCallbacks Lint.callbacks] else []).
Proof.
  induction inputs as [|[w data] rest IH]; intros s.
  - cbn. rewrite andb_false_r, app_nil_r. reflexivity.
  - cbn [Lint.run]. unfold mbind, M_bind.
    pose proof (lint_trace_spec F w data s) as Ht.
    pose proof (lint_initialized_spec F w data s) as Hi.
    pose proof (lint_calls_register F w data s) as Hr.
    rewrite bool_decide_eq_false_2 by done. cbn [negb].
    rewrite andb_true_r.
    destruct (Lint.LLVMFuzzerTestOneInput F w data s) as [v s'|h s'];
      cbn [Lint.final] in Ht, Hi |- *.
    + rewrite IH, Hi, registered_nonzero. cbn [andb].
      rewrite app_nil_r, Ht, List.filter_app, Hr. reflexivity.
    + rewrite Ht, List.filter_app, Hr. reflexivity.
Qed.

(** X9: the CLI target registers its callbacks in its first call, before
    any check: after a run of at least one call the trace holds exactly one
    registration, also when that call aborted at the leak check. *)
Theorem cli_target_registers_in_first_call (F : fuzz_api)
    (input : world * list byte) (rest : list (world * list byte))
    (fd : fuzzData F) :
  registrations
    (Lint.trace F
       (Lint.final F (Lint.run F (input :: rest) (Lint.start F fd))))
  = 1%nat
  /\ exists calls',
       Lint.calls F input.1 input.2 (Lint.start F fd)
       = xmlRegisterInputCallbacks Lint.callbacks :: calls'.
Proof.
  split.
  - unfold registrations. rewrite lint_run_registers_exact. reflexivity.
  - rewrite lint_calls_spec. unfold Lint.target_calls. cbn. eauto.
Qed.

End targets_compared.

(** ** lint.c: what a call allocates, and the call of xmllintMain *)

Section lint_resources.
Import Lint Observed.
Context (F : fuzz_api).

Lemma count_calls_app f (t1 t2 : list event) :
  count_calls f (t1 ++ t2) = (count_calls f t1 + count_calls f t2)%nat.
Proof. unfold count_calls. rewrite List.filter_app, length_app. done. Qed.

Lemma count_calls_prologue f w data (s : state F) :
  (forall cb, f (xmlRegisterInputCallbacks cb) = false) ->
  (forall URI enc flags,
     f (xmlParserInputBufferCreateUrl URI enc flags) = false) ->
  (forall out, f (xmlFreeParserInputBuffer out) = false) ->
  count_calls f (register_events (initialized F s) ++
                 create_url_events w data) = 0%nat.
Proof.
  intros Hr Hc Hf. unfold register_events, create_url_events, count_calls.
  destruct (initialized F s =? 0), (_ && _), (createUrl_out w data);
    cbn; rewrite ?Hr, ?Hc, ?Hf; reflexivity.
Qed.

Lemma count_calls_target f w data (s : state F) :
  (forall cb, f (xmlRegisterInputCallbacks cb) = false) ->
  (forall URI enc flags,
     f (xmlParserInputBufferCreateUrl URI enc flags) = false) ->
  (forall out, f (xmlFreeParserInputBuffer out) = false) ->
  count_calls f (target_calls F w data s)
  = count_calls f
      (xmlMemUsed ::
       (if negb (memUsed w =? 0) then
          [fprintf_stderr
             (String.append "Undetected leak in previous iteration"
                            (String "010"%char EmptyString))]
        else if negb (malloc_succeeds w) then [malloc capacity]
        else [malloc capacity;
              xmlFuzzDataInit data (Z.of_nat (length data))] ++
             document_events F w (Z.of_nat (length data))
               (read_all F w data (fuzz F s)))).
Proof.
  intros Hr Hc Hf. unfold target_calls.
  rewrite app_assoc, count_calls_app, count_calls_prologue by done.
  reflexivity.
Qed.

(** X10: a call of the CLI target that returns has asked for the array
    once and freed it once, and has initialised the fuzz data once and
    cleaned it up once; a call never frees the array without having
    allocated it. *)
Theorem returning_call_frees_what_it_allocates (w : world)
    (data : list byte) (s : state F) :
  let t := calls F w data s in
  ((exists v s', LLVMFuzzerTestOneInput F w data s = Done v s') ->
   count_calls is_malloc t = 1%nat /\ count_calls is_free_argv t = 1%nat /\
   count_calls is_data_init t = 1%nat /\ count_calls is_cleanup t = 1%nat)
  /\ (count_calls is_free_argv t <= count_calls is_malloc t)%nat
  /\ (count_calls is_cleanup t <= count_calls is_data_init t)%nat
  /\ (count_calls is_malloc t <= 1)%nat.
Proof.
  intros t. subst t. rewrite lint_calls_spec, target_spec.
  rewrite !count_calls_target by done.
  unfold target_result, document_events, main_events, exit_events.
  destruct (negb (memUsed w =? 0)).
  { split; [intros (v & s' & [=])|]. cbn. lia. }
  destruct (negb (malloc_succeeds w)).
  { split; [intros (v & s' & [=])|]. cbn. lia. }
  destruct (docBuffer F _); [destruct (docUrl F _) as [url|];
    [destruct (dash_first url)|]|];
    try destruct (LIBXML_CATALOG_ENABLED w);
    (split; [intros (v & s' & Hres); try discriminate Hres|]); cbn; lia.
Qed.

Lemma main_not_in_prologue w data (s : state F) argc cells :
  xmllintMain argc cells
  ∉ register_events (initialized F s) ++ create_url_events w data.
Proof.
  unfold register_events, create_url_events.
  destruct (initialized F s =? 0), (_ && _), (createUrl_out w data);
    set_solver.
Qed.

Lemma to_int_exact v : - 2 ^ 31 <= v < 2 ^ 31 -> to_int v = v.
Proof. intros Hv. unfold to_int. rewrite Z.mod_small; lia. Qed.

(** X11: a call of the CLI target calls [xmllintMain] exactly when the leak
    check passes, the array was allocated, there is a main entity and its
    URL does not start with a dash, and then once. The array it hands over
    starts with [xmllint] and [--nocatalogs], its last argument, in cell
    [argc - 1], is that URL, and [argc] is at least 3. Just before the
    call come [xmlSetGenericErrorFunc] and then, exactly when
    [LIBXML_CATALOG_ENABLED] is defined, [xmlCatalogSetDefaults], neither
    of which is called earlier; just after it come [xmlMemSetup], the
    cleanup and the free. *)
Theorem main_called_with_document (w : world) (data : list byte)
    (s : state F) :
  let r := read_all F w data (fuzz F s) in
  let t := calls F w data s in
  (count_calls is_main t
   = if bool_decide (memUsed w = 0%Z) && malloc_succeeds w &&
        bool_decide (docBuffer F r <> None) &&
        match docUrl F r with
        | Some url => negb (dash_first url)
        | None => false
        end
     then 1 else 0)%nat
  /\ (forall argc cells,
        xmllintMain argc cells ∈ t ->
        memUsed w = 0 /\ malloc_succeeds w = true /\
        docBuffer F r <> None /\
        cells !! 0%nat = Some (Some (Some "xmllint"%string)) /\
        cells !! 1%nat = Some (Some (Some "--nocatalogs"%string)) /\
        3 <= argc /\
        (exists url, docUrl F r = Some url /\
                     String.get 0 url <> Some "-"%char /\
                     cells !! Z.to_nat (argc - 1) = Some (Some (Some url))) /\
        (exists pre,
           t = pre ++ [xmllintMain argc cells; xmlMemSetup;
                       xmlFuzzDataCleanup; free_argv] /\
           (exists pre',
              pre = pre' ++ xmlSetGenericErrorFunc ::
                            (if LIBXML_CATALOG_ENABLED w
                             then [xmlCatalogSetDefaults] else []) /\
              (xmlSetGenericErrorFunc ∉ pre') /\
              (xmlCatalogSetDefaults ∉ pre')))).
Proof.
  intros r t. split.
  - subst t. rewrite lint_calls_spec, count_calls_target by done.
    unfold document_events, main_events, exit_events. fold r.
    destruct (Z.eqb_spec (memUsed w) 0) as [Hm|Hm];
      [rewrite bool_decide_eq_true_2 by done
      |rewrite bool_decide_eq_false_2 by done; reflexivity].
    cbn [negb andb]. destruct (malloc_succeeds w); cbn [negb andb];
      [|reflexivity].
    destruct (docBuffer F r) as [buf|];
      [rewrite bool_decide_eq_true_2 by done
      |rewrite bool_decide_eq_false_2 by (intros H; by apply H);
       reflexivity].
    cbn [andb]. destruct (docUrl F r) as [url|]; [|reflexivity].
    destruct (dash_first url); cbn [negb]; [reflexivity|].
    destruct (LIBXML_CATALOG_ENABLED w); reflexivity.
  - intros argc cells Hin.
    pose proof Hin as (url' & Hargc & Hcells)%lint_main_call.
    cbv zeta in Hargc, Hcells. fold r in Hargc, Hcells.
    subst t. rewrite lint_calls_spec in Hin |- *. unfold target_calls in *.
    pose proof (main_not_in_prologue w data s argc cells) as Hpre.
    rewrite app_assoc, elem_of_app in Hin. destruct Hin as [Hin|Hin]; [done|].
    clear Hpre. revert Hin.
    unfold document_events, main_events, exit_events. fold r.
    destruct (Z.eqb_spec (memUsed w) 0) as [Hm|Hm]; cbn [negb];
      [|intros H; exfalso; clear -H; set_solver].
    destruct (malloc_succeeds w); cbn [negb];
      [|intros H; exfalso; clear -H; set_solver].
    destruct (docBuffer F r) as [buf|] eqn:Hbuf;
      [|intros H; exfalso; clear -H; set_solver].
    destruct (docUrl F r) as [url|] eqn:Hurl;
      [|intros H; exfalso; clear -H; set_solver].
    unfold dash_first. case_bool_decide as Hdash;
      [intros H; exfalso; clear -H; set_solver|].
    intros Hin.
    assert (argc = to_int (Z.of_nat
                             (length (arguments F (Z.of_nat (length data)) r
                                      ++ [Some url; None])) - 1)
            /\ cells = (Some <$> (arguments F (Z.of_nat (length data)) r
                                  ++ [Some url; None])) ++
                       replicate
                         (capacity -
                          length (arguments F (Z.of_nat (length data)) r
                                  ++ [Some url; None])) None) as [-> ->].
    { destruct (LIBXML_CATALOG_ENABLED w);
        repeat (apply elem_of_cons in Hin as [Hin|Hin];
                [try discriminate Hin|]);
        try (by apply elem_of_nil in Hin);
        injection Hin as -> ->; done. }
    clear Hin Hargc Hcells url'.
    pose proof (arguments_length F (Z.of_nat (length data)) r
                  (read_all_switches F w data (fuzz F s))) as Hlen.
    assert (2 <= length (arguments F (Z.of_nat (length data)) r))%nat as Hlen2
      by (unfold arguments; rewrite length_app; simpl; lia).
    set (args := arguments F (Z.of_nat (length data)) r) in *.
    assert (args !! 0%nat = Some (Some "xmllint"%string) /\
            args !! 1%nat = Some (Some "--nocatalogs"%string)) as [Ha0 Ha1]
      by (split; reflexivity).
    clearbody args.
    assert (length (args ++ [Some url; None]) = length args + 2)%nat as Hl
      by (rewrite length_app; reflexivity).
    rewrite Hl. rewrite to_int_exact by lia.
    split; [done|]. split; [done|]. split; [done|].
    split; [|split; [|split; [lia|split]]].
    + rewrite lookup_app_l by (rewrite length_fmap, Hl; lia).
      rewrite list_lookup_fmap, lookup_app_l by lia. by rewrite Ha0.
    + rewrite lookup_app_l by (rewrite length_fmap, Hl; lia).
      rewrite list_lookup_fmap, lookup_app_l by lia. by rewrite Ha1.
    + exists url. split; [reflexivity|]. split; [exact Hdash|].
      replace (Z.to_nat (Z.of_nat (length args + 2) - 1 - 1))
        with (length args) by lia.
      rewrite lookup_app_l by (rewrite length_fmap, Hl; lia).
      rewrite list_lookup_fmap, lookup_app_r by lia.
      rewrite Nat.sub_diag. reflexivity.
    + assert (forall e,
                e ∈ register_events (initialized F s) ++
                    create_url_events w data ++
                    [xmlMemUsed; malloc capacity;
                     xmlFuzzDataInit data (Z.of_nat (length data))] ->
                e <> xmlSetGenericErrorFunc /\ e <> xmlCatalogSetDefaults)
        as Hbefore.
      { intros e He. rewrite app_assoc in He.
        apply elem_of_app in He as [He|He].
        - apply prologue_events_kind in He. by destruct e.
        - clear -He.
          repeat (rewrite elem_of_cons in He || rewrite elem_of_nil in He);
            naive_solver. }
      exists (register_events (initialized F s) ++
              create_url_events w data ++
              [xmlMemUsed; malloc capacity;
               xmlFuzzDataInit data (Z.of_nat (length data))] ++
              xmlSetGenericErrorFunc ::
              (if LIBXML_CATALOG_ENABLED w
               then [xmlCatalogSetDefaults] else [])).
      split.
      { destruct (LIBXML_CATALOG_ENABLED w); rewrite <- !app_assoc;
          reflexivity. }
      exists (register_events (initialized F s) ++
              create_url_events w data ++
              [xmlMemUsed; malloc capacity;
               xmlFuzzDataInit data (Z.of_nat (length data))]).
      split; [rewrite <- !app_assoc; reflexivity|].
      split; intros He; apply Hbefore in He as [? ?]; done.
Qed.

End lint_resources.

(** ** lint.c: the reads of the target and the chunks of the mutator *)

Section lint_reads.
Import Lint Observed.
Context (F : fuzz_api).

(** The recording reader returns what [F] returns. *)
Lemma selected_recording sw : forall i u (st : fuzzData (recording F)),
  (selected (recording F) sw i u st).1
  = (selected F sw i u st.1).1 /\
  (selected (recording F) sw i u st).2.1 = (selected F sw i u st.1).2.
Proof.
  induction sw as [|x sw IH]; intros i u st; [done|].
  cbn [selected]. destruct (i mod 32 =? 0).
  - cbn [xmlFuzzReadInt recording fst snd].
    match goal with
    | |- context [selected (recording F) sw ?j ?v ?d] =>
        destruct (IH j v d) as [H1 H2];
        destruct (selected (recording F) sw j v d) as [[l1 u1] d1]
    end.
    cbn [fst snd] in *.
    destruct (selected F sw (i + 1)
                (Z.shiftr (to_unsigned (xmlFuzzReadInt F 4 st.1).1) 1)
                (xmlFuzzReadInt F 4 st.1).2) as [[l2 u2] d2].
    cbn [fst snd] in *. injection H1 as -> ->. subst d2. done.
  - destruct (IH (i + 1) (Z.shiftr u 1) st) as [H1 H2].
    destruct (selected (recording F) sw (i + 1) (Z.shiftr u 1) st)
      as [[l1 u1] d1].
    destruct (selected F sw (i + 1) (Z.shiftr u 1) st.1) as [[l2 u2] d2].
    cbn [fst snd] in *. injection H1 as -> ->. subst d2. done.
Qed.

(** X12: whatever the input and the reader, the target asks
    [xmlFuzzReadInt] for 4, 4, 4, 1 and 1 bytes, in this order, between
    [xmlFuzzDataInit] and the first string: 8 bytes for the switches, 4 for
    [--maxmem], 1 for [--max-ampl] and 1 for [--pretty], which are the sizes
    of the chunks that [LLVMFuzzerCustomMutator] declares before the
    terminating chunk of size 0. Recording the sizes does not change the
    arguments the target builds. *)
Theorem reads_follow_mutator_chunks (w : world) (data : list byte)
    (st : fuzzData (recording F)) (XML_FUZZ_PROB_ONE : Z) :
  (r_fuzz (recording F) (read_all (recording F) w data st)).2
  = [4; 4; 4; 1; 1]
  /\ LintMutator.size <$> LintMutator.chunks XML_FUZZ_PROB_ONE
     = [4 + 4; 4; 1; 1; 0]
  /\ arguments (recording F) (Z.of_nat (length data))
       (read_all (recording F) w data st)
     = arguments F (Z.of_nat (length data)) (read_all F w data st.1)
  /\ (forall mutate size maxSize seed,
        LintMutator.LLVMFuzzerCustomMutator XML_FUZZ_PROB_ONE mutate data
          size maxSize seed
        = mutate (LintMutator.chunks XML_FUZZ_PROB_ONE) data size maxSize
            seed).
Proof.
  split; [|split; [reflexivity|split; [|reflexivity]]].
  - unfold read_all. rewrite selected_switches_spec. reflexivity.
  - unfold read_all, arguments, option_args.
    pose proof (selected_recording switches 0 (uval_indeterminate w)
                  (fuzzDataInit (recording F) data st)) as [H1 H2].
    destruct (selected (recording F) switches 0 (uval_indeterminate w)
                (fuzzDataInit (recording F) data st)) as [[l1 u1] d1].
    cbn [fuzzDataInit recording fst snd] in H1, H2.
    destruct (selected F switches 0 (uval_indeterminate w)
                (fuzzDataInit F data st.1)) as [[l2 u2] d2].
    cbn [fst snd] in H1, H2. injection H1 as -> ->. subst d2.
    destruct d1 as [d1 log]. cbn [xmlFuzzReadInt xmlFuzzReadString recording
                                    fst snd].
    destruct (xmlFuzzReadInt F 4 d1) as [maxmem fd2]. cbn [fst snd].
    destruct (xmlFuzzReadInt F 1 fd2) as [max_ampl fd3]. cbn [fst snd].
    destruct (xmlFuzzReadInt F 1 fd3) as [pretty fd4]. cbn [fst snd].
    destruct (xmlFuzzReadString F fd4) as [encode fd5]. cbn [fst snd].
    destruct (xmlFuzzReadString F fd5) as [pattern fd6]. cbn [fst snd].
    destruct (xmlFuzzReadString F fd6) as [xpath fd7]. reflexivity.
Qed.

End lint_reads.

(** ** tree.h: the set of properties of a document *)

Section doc_properties.
Import DocProperties.

Lemma xmlDocProperties_value_land p q :
  Z.land (xmlDocProperties_value q) (xmlDocProperties_value p)
  = if decide (q = p) then xmlDocProperties_value p else 0.
Proof. destruct p, q; reflexivity. Qed.

Lemma xmlDocProperties_value_pos p : 0 < xmlDocProperties_value p < 256.
Proof. destruct p; split; reflexivity. Qed.

Lemma lor_below a b n :
  0 <= n -> 0 <= a < 2 ^ n -> 0 <= b < 2 ^ n -> 0 <= Z.lor a b < 2 ^ n.
Proof.
  intros Hn Ha Hb.
  assert (0 <= Z.lor a b) as Hpos by (apply Z.lor_nonneg; lia).
  split; [done|].
  assert (Z.shiftr (Z.lor a b) n = 0) as Hs.
  { rewrite Z.shiftr_lor, !Z.shiftr_div_pow2 by lia.
    rewrite !Z.div_small by lia. reflexivity. }
  rewrite Z.shiftr_div_pow2 in Hs by lia.
  apply Z.div_small_iff in Hs; lia.
Qed.

(** X13: the eight properties of a document are distinct single bits below
    256, so the [int properties] that holds a set of them, or-ed, is below
    256 and has the bit of a property set exactly when the property is in
    the set. *)
Theorem properties_encode_a_set (ps : list xmlDocProperties)
    (p : xmlDocProperties) :
  (has_property (properties_of ps) p = true <-> p ∈ ps)
  /\ 0 <= properties_of ps < 256
  /\ (exists k, 0 <= k < 8 /\ xmlDocProperties_value p = 2 ^ k)
  /\ (forall q, q <> p ->
        Z.land (xmlDocProperties_value q) (xmlDocProperties_value p) = 0).
Proof.
  split; [|split; [|split]].
  - unfold has_property. induction ps as [|q ps IH].
    + cbn. split; [discriminate|]. by intros ?%elem_of_nil.
    + cbn [properties_of foldr]. fold (properties_of ps).
      rewrite Z.land_lor_distr_l, xmlDocProperties_value_land.
      rewrite elem_of_cons, <- IH.
      pose proof (xmlDocProperties_value_pos p) as Hp.
      destruct (decide (q = p)) as [->|Hne].
      * split; [by left|]. intros _.
        destruct (Z.eqb_spec
                    (Z.lor (xmlDocProperties_value p)
                       (Z.land (properties_of ps) (xmlDocProperties_value p)))
                    0) as [H0|]; [|reflexivity].
        apply Z.lor_eq_0_iff in H0 as [H0 _]. lia.
      * rewrite Z.lor_0_l. split; [by right|]. intros [->|Hin]; done.
  - induction ps as [|q ps IH]; [cbn; lia|].
    cbn [properties_of foldr]. fold (properties_of ps).
    pose proof (xmlDocProperties_value_pos q).
    change 256 with (2 ^ 8). apply lor_below; [lia|change (2 ^ 8) with 256; lia|done].
  - destruct p;
      [exists 0|exists 1|exists 2|exists 3|exists 4|exists 5|exists 6|exists 7];
      split; first [lia|reflexivity].
  - intros q Hq. rewrite xmlDocProperties_value_land.
    destruct (decide (q = p)); done.
Qed.

End doc_properties.

(** ** lint.c: the initializer *)

Section lint_init.
Import LintInit.

(** X14: [LLVMFuzzerInitialize] returns, and then 0, exactly when [open]
    and [dup2] both succeed; it then has redirected the standard output and
    closed the descriptor. When [open] fails it aborts after one [perror]
    without calling [dup2] or [close]; when [dup2] fails it aborts after one
    [perror] and leaves the descriptor open. *)
Theorem initializer_redirects_or_aborts (w : os) (t : list call) :
  let fd := open_result w in
  let r := LLVMFuzzerInitialize w t in
  ((exists v t', r = Done v t') <-> fd <> -1 /\ dup2_result w fd <> -1)
  /\ (forall v t', r = Done v t' ->
        v = 0 /\ t' = t ++ [open_dev_null; dup2_stdout fd; close fd])
  /\ (fd = -1 ->
      r = Halt Abort (t ++ [open_dev_null; perror "/dev/null"]))
  /\ (fd <> -1 -> dup2_result w fd = -1 ->
      r = Halt Abort (t ++ [open_dev_null; dup2_stdout fd; perror "dup2"]))
  /\ (forall h t', r = Halt h t' ->
        h = Abort /\ (forall fd', close fd' ∈ t' -> close fd' ∈ t) /\
        exists msg, t' = t ++ [open_dev_null; perror msg] \/
                    t' = t ++ [open_dev_null; dup2_stdout fd; perror msg]).
Proof.
  intros fd r. subst r. unfold LLVMFuzzerInitialize.
  unfold mbind, M_bind, mret, M_ret, emit, stop. fold fd.
  destruct (Z.eqb_spec fd (-1)) as [Hfd|Hfd].
  - cbn. split; [|split; [|split; [|split]]].
    + split; [intros (v & t' & [=])|intros [? _]; done].
    + intros v t' [=].
    + intros _. rewrite <- app_assoc. reflexivity.
    + done.
    + intros h t' [= <- <-]. split; [done|]. split.
      * intros fd'. rewrite !elem_of_app, !elem_of_cons, elem_of_nil.
        intros [[H|[H|[]]]|[H|[]]]; done.
      * exists "/dev/null"%string. left. rewrite <- app_assoc. reflexivity.
  - cbn. destruct (Z.eqb_spec (dup2_result w fd) (-1)) as [Hd|Hd].
    + cbn. split; [|split; [|split; [|split]]].
      * split; [intros (v & t' & [=])|intros [_ ?]; done].
      * intros v t' [=].
      * done.
      * intros _ _. rewrite <- !app_assoc. reflexivity.
      * intros h t' [= <- <-]. split; [done|]. split.
        -- intros fd'. rewrite !elem_of_app, !elem_of_cons, elem_of_nil.
           intros [[[H|[H|[]]]|[H|[]]]|[H|[]]]; done.
        -- exists "dup2"%string. right. rewrite <- !app_assoc. reflexivity.
    + cbn. split; [|split; [|split; [|split]]].
      * split; [done|]. intros _. eauto.
      * intros v t' [= <- <-]. split; [done|].
        rewrite <- !app_assoc. reflexivity.
      * done.
      * done.
      * intros h t' [=].
Qed.

End lint_init.

(** ** The comparison of the targets on a concrete input *)

Section compared_on_samples.
Import Observed.

Lemma cli_target_begins_as_url_target_witness :
  Lint.initialized ByteReader.api Samples.fresh
  = XmlIOUri.initialized XmlIOUri.start /\
  exists rest,
    Lint.calls ByteReader.api Samples.quiet
      (Samples.plain_document ++ [x00]) Samples.fresh
    = (if accepted (Samples.quiet, Samples.plain_document ++ [x00])
       then XmlIOUri.calls Samples.quiet (Samples.plain_document ++ [x00])
              XmlIOUri.start
       else Lint.register_events
              (Lint.initialized ByteReader.api Samples.fresh)) ++
      xmlMemUsed :: rest
    /\ (accepted (Samples.quiet, Samples.plain_document ++ [x00]) = false ->
        XmlIOUri.calls Samples.quiet (Samples.plain_document ++ [x00])
          XmlIOUri.start = []).
Proof.
  split; [reflexivity|].
  apply (cli_target_begins_as_url_target ByteReader.api Samples.quiet
           (Samples.plain_document ++ [x00]) Samples.fresh XmlIOUri.start).
  reflexivity.
Defined.

End compared_on_samples.
